(** * btgym/algorithms/worker.py: the distributed worker process

    A shallow embedding of [FastSaver.save], [Worker.__init__] and
    [Worker.run].  The code
    drives external collaborators only (TensorFlow's server, supervisor and
    session, the environment class, the trainer class, the logger), so the
    embedding is a small exception-and-state monad over an explicit world:
    every call to a collaborator is recorded in a history together with the
    collaborator's reply, and the world decides each reply (a value, an
    exception, or no return at all). *)

From Stdlib Require Import ZArith Ascii String List Bool Lia.
From stdpp Require Import base option gmap strings pretty.
Import ListNotations.

Local Open Scope string_scope.
Local Open Scope list_scope.

(** ** Python values carried by the configuration dictionaries *)

Inductive PyVal :=
| PyNone
| PyBool (b : bool)
| PyInt (z : Z)
| PyStr (s : string)
| PyRef (ident : string).   (* an opaque object: class reference, dict, logger *)

(** [str(int)]. *)
Definition str_int (z : Z) : string := pretty z.

(** ['{}'.format(v)]. *)
Definition py_format (v : PyVal) : string :=
  match v with
  | PyNone => "None"
  | PyBool true => "True"
  | PyBool false => "False"
  | PyInt z => str_int z
  | PyStr s => s
  | PyRef ident => ident
  end.

(** [x in s] on two strings: [x] occurs in [s] as a contiguous substring. *)
Fixpoint str_in (x s : string) : bool :=
  String.prefix x s ||
  match s with
  | EmptyString => false
  | String _ s' => str_in x s'
  end.

(** [s.startswith(p)]. *)
Definition startswith (s p : string) : bool := String.prefix p s.

Definition endswith_sep (a : string) : bool :=
  match String.get (String.length a - 1) a with
  | Some c => Ascii.eqb c "/"%char
  | None => false
  end.

(** [os.path.join(a, b)] (posix) for a relative second component. *)
Definition os_path_join (a b : string) : string :=
  if (String.length a =? 0)%nat || endswith_sep a then a +:+ b else a +:+ "/" +:+ b.

(** ** TensorFlow graph objects, as symbolic descriptions *)

(** A [tf.Variable], as far as the worker looks at it. *)
Record TfVariable := { name : string; get_shape : string }.

Inductive Op :=
| variables_initializer (var_list : list TfVariable)
| global_variables_initializer
| report_uninitialized_variables (var_list : list TfVariable)
| trainer_sync            (* trainer.sync *)
| trainer_global_step.    (* trainer.global_step *)

Record ConfigProto := {
  device_filters : list string;
  intra_op_parallelism_threads : option Z;
  inter_op_parallelism_threads : option Z
}.

(** [FastSaver(var_list)]. *)
Record FastSaver := { saver_var_list : list TfVariable }.

(** The closure [init_fn] of [Worker.run]; it captures [init_all_op]. *)
Inductive InitFn := init_fn_closure (init_all_op : Op).

Record SupervisorArgs := {
  is_chief : bool;
  logdir : string;
  saver : FastSaver;
  summary_op : option Op;
  init_op : Op;
  init_fn : InitFn;
  ready_op : Op;
  global_step : Op;
  save_model_secs : Z
}.

(** Arguments of [tf.train.Saver.save]. *)
Record SaveArgs := {
  save_path : string;
  save_global_step : option Z;
  latest_filename : option string;
  meta_graph_suffix : string;
  write_meta_graph : bool
}.

Inductive EnvArgs :=
| EnvKwargs (kwargs : gmap string PyVal)   (* env_class called with ** env_kwargs *)
| EnvPositional (arg : PyVal).             (* env_class(env_kwargs['gym_id']) *)

Record TrainerArgs := {
  t_task : Z;
  t_policy_config : PyVal;
  t_random_seed : option Z;
  t_kwargs : gmap string PyVal
}.

(** ** Exceptions, calls to collaborators and their replies *)

Inductive Exn :=
| SystemExit (arg : string)          (* raise SystemExit('...') *)
| KeyError (key : string)
| TypeError
| UnboundLocalError (var : string)
| External (cls : string).           (* raised inside a collaborator *)

(** Calls whose result the worker does not inspect. *)
Inductive UCall :=
| tf_reset_default_graph
| import_gym
| ClusterSpec_as_cluster_def (cluster_spec : gmap string (list string))
| tf_train_Server (job_name : string) (task_index : Z) (config : ConfigProto)
| server_join
| env_class_call (class_ref : PyVal) (args : EnvArgs)
| trainer_class_call (class_ref : PyVal) (args : TrainerArgs)
| tf_summary_FileWriter (summary_dir : string)
| tf_train_Supervisor (args : SupervisorArgs)
| managed_session_enter (config : ConfigProto)
| as_default_enter
| sess_run (fetch : Op)
| trainer_start
| memory_fill
| trainer_process
| env_close
| sv_stop
| Saver_save (args : SaveArgs).

(** Calls that return a truth value; the two [__exit__] calls return
    whether the exception handed to them is suppressed. *)
Inductive BCall :=
| sv_should_stop
| hasattr_trainer_memory
| memory_is_full
| as_default_exit (exc : option Exn)
| managed_session_exit (exc : option Exn).

(** Calls that return an integer. *)
Inductive ICall :=
| sess_run_value (fetch : Op).

(** Calls that return a list of variables. *)
Inductive VCall :=
| tf_global_variables.

Inductive Reply (A : Type) :=
| Returns (a : A)
| Raises (e : Exn)
| Diverges.               (* the call never returns *)
Arguments Returns {A} a.
Arguments Raises {A} e.
Arguments Diverges {A}.

Inductive Level := DEBUG | WARNING.

Inductive Event :=
| EvU (c : UCall) (r : Reply unit)
| EvB (c : BCall) (r : Reply bool)
| EvI (c : ICall) (r : Reply Z)
| EvV (c : VCall) (r : Reply (list TfVariable))
| EvLog (lvl : Level) (msg : string).

(** The history lists the events newest first. *)
Definition History := list Event.

(** The world answers the [n]-th interaction of a run. *)
Record World := {
  w_unit : nat -> UCall -> Reply unit;
  w_bool : nat -> BCall -> Reply bool;
  w_int : nat -> ICall -> Reply Z;
  w_vars : nat -> VCall -> Reply (list TfVariable)
}.

(** ** The monad *)

(** Interpreter state: the history and the one local variable of [run] that
    is read after the [with] block, [global_step]. *)
Record State := { history : History; var_global_step : option Z }.

Inductive Outcome (A : Type) :=
| Done (a : A)
| Raised (e : Exn)
| Blocked           (* a collaborator never returned *)
| OutOfFuel.        (* the loop bound of the model was reached *)
Arguments Done {A} a.
Arguments Raised {A} e.
Arguments Blocked {A}.
Arguments OutOfFuel {A}.

Definition Py (A : Type) : Type := World -> State -> Outcome A * State.

Definition ret {A} (a : A) : Py A := fun _ s => (Done a, s).

Definition bind {A B} (m : Py A) (f : A -> Py B) : Py B :=
  fun w s =>
    match m w s with
    | (Done a, s') => f a w s'
    | (Raised e, s') => (Raised e, s')
    | (Blocked, s') => (Blocked, s')
    | (OutOfFuel, s') => (OutOfFuel, s')
    end.

Declare Scope py_scope.
Delimit Scope py_scope with py.
Notation "x <- m ;; k" := (bind m (fun x => k))
  (at level 100, m at next level, right associativity) : py_scope.
Notation "m ;; k" := (bind m (fun _ => k))
  (at level 100, right associativity) : py_scope.
Local Open Scope py_scope.

Definition raise {A} (e : Exn) : Py A := fun _ s => (Raised e, s).

Definition out_of_fuel {A} : Py A := fun _ s => (OutOfFuel, s).

Definition record (ev : Event) (s : State) : State :=
  {| history := ev :: history s; var_global_step := var_global_step s |}.

Definition reply_to {A} (mk : Reply A -> Event) (r : Reply A) (s : State)
  : Outcome A * State :=
  match r with
  | Returns a => (Done a, record (mk (Returns a)) s)
  | Raises e => (Raised e, record (mk (Raises e)) s)
  | Diverges => (Blocked, record (mk Diverges) s)
  end.

Definition callU (c : UCall) : Py unit :=
  fun w s => reply_to (EvU c) (w_unit w (length (history s)) c) s.
Definition callB (c : BCall) : Py bool :=
  fun w s => reply_to (EvB c) (w_bool w (length (history s)) c) s.
Definition callI (c : ICall) : Py Z :=
  fun w s => reply_to (EvI c) (w_int w (length (history s)) c) s.
Definition callV (c : VCall) : Py (list TfVariable) :=
  fun w s => reply_to (EvV c) (w_vars w (length (history s)) c) s.

(** [self.log.debug(msg)], [self.log.warning(msg)]. *)
Definition log (lvl : Level) (msg : string) : Py unit :=
  fun _ s => (Done tt, record (EvLog lvl msg) s).

(** [global_step = v]. *)
Definition assign_global_step (v : Z) : Py unit :=
  fun _ s => (Done tt, {| history := history s; var_global_step := Some v |}).

(** Reading the local variable [global_step]. *)
Definition read_global_step : Py Z :=
  fun _ s =>
    match var_global_step s with
    | Some v => (Done v, s)
    | None => (Raised (UnboundLocalError "global_step"), s)
    end.

(** [try: m  except: handler]: a bare [except] catches every exception. *)
Definition try_except {A} (m : Py A) (handler : Exn -> Py A) : Py A :=
  fun w s =>
    match m w s with
    | (Raised e, s') => handler e w s'
    | r => r
    end.

(** [with cm: body], for a context manager given by its enter call and its
    [__exit__] call.  [__exit__] receives the exception of the body, if any,
    and a true result suppresses it. *)
Definition with_ (enter : UCall) (exit_ : option Exn -> BCall) (body : Py unit)
  : Py unit :=
  callU enter ;;
  fun w s =>
    match body w s with
    | (Done _, s') => (callB (exit_ None) ;; ret tt) w s'
    | (Raised e, s') =>
        (suppress <- callB (exit_ (Some e)) ;;
         if suppress then ret tt else raise e) w s'
    | r => r
    end.

(** [d[key]] on a dictionary. *)
Definition getitem (d : gmap string PyVal) (key : string) : Py PyVal :=
  match d !! key with
  | Some v => ret v
  | None => raise (KeyError key)
  end.

(** [for x in l: f x]. *)
Fixpoint for_each {A} (l : list A) (f : A -> Py unit) : Py unit :=
  match l with
  | [] => ret tt
  | x :: l' => f x ;; for_each l' f
  end.

(** ** [FastSaver.save] *)

(** The method forwards to [tf.train.Saver.save] with the caller's first
    arguments in place and the constant [False] in the last position; it has
    no [return] statement. *)
Definition FastSaver_save (a : SaveArgs) : Py unit :=
  callU (Saver_save {| save_path := save_path a;
                       save_global_step := save_global_step a;
                       latest_filename := latest_filename a;
                       meta_graph_suffix := meta_graph_suffix a;
                       write_meta_graph := false |}).

(** ** [Worker] *)

(** The attributes [Worker.__init__] stores on [self]. *)
Record Worker := {
  env_class : PyVal;
  env_kwargs : gmap string PyVal;
  policy_config : PyVal;
  trainer_class : PyVal;
  trainer_kwargs : gmap string PyVal;
  cluster_spec : gmap string (list string);
  job_name : string;
  task : Z;
  log_dir : string;
  max_train_steps : Z;
  random_seed : option Z;
  test_mode : bool
}.

(** [tf.ConfigProto(device_filters=["/job:ps"])]. *)
Definition ps_config : ConfigProto :=
  {| device_filters := ["/job:ps"];
     intra_op_parallelism_threads := None;
     inter_op_parallelism_threads := None |}.

(** [tf.ConfigProto(intra_op_parallelism_threads=1, inter_op_parallelism_threads=2)]. *)
Definition worker_server_config : ConfigProto :=
  {| device_filters := [];
     intra_op_parallelism_threads := Some 1%Z;
     inter_op_parallelism_threads := Some 2%Z |}.

Definition session_config (self : Worker) : ConfigProto :=
  {| device_filters :=
       ["/job:ps"; "/job:worker/task:" +:+ str_int (task self) +:+ "/cpu:0"];
     intra_op_parallelism_threads := None;
     inter_op_parallelism_threads := None |}.

(** Keyword names [run] passes to the trainer class next to
    [**self.trainer_kwargs]; a key of [trainer_kwargs] among them makes the
    call itself raise [TypeError]. *)
Definition trainer_keywords : list string :=
  ["env"; "task"; "policy_config"; "log"; "random_seed"].

Definition kwargs_clash (kw : gmap string PyVal) : bool :=
  existsb (fun k => bool_decide (is_Some (kw !! k))) trainer_keywords.

Definition msg_btgym_failed (self : Worker) : string :=
  " Worker_" +:+ str_int (task self) +:+ " failed to make BTgym environment".

Definition msg_atari_failed (self : Worker) : string :=
  " Worker_" +:+ str_int (task self) +:+ " failed to make Atari Gym environment".

Definition msg_started (self : Worker) (g : Z) : string :=
  "worker_" +:+ str_int (task self) +:+ ": started training at step: " +:+ str_int g.

Definition msg_reached (self : Worker) (g : Z) : string :=
  "worker_" +:+ str_int (task self) +:+ ": reached " +:+ str_int g +:+ " steps, exiting.".

(** [variables_to_save], line 160. *)
Definition variables_to_save (global_variables : list TfVariable) : list TfVariable :=
  List.filter (fun v => negb (startswith (name v) "local")) global_variables.

(** The body of [init_fn], lines 170-172. *)
Definition init_fn_body (f : InitFn) : Py unit :=
  match f with
  | init_fn_closure init_all_op =>
      log DEBUG "Initializing all parameters." ;;
      callU (sess_run init_all_op)
  end.

(** The [while] loop, lines 203-205.  One unit of [fuel] pays for one test
    of the loop condition. *)
Fixpoint training_loop (self : Worker) (fuel : nat) : Py unit :=
  match fuel with
  | O => out_of_fuel
  | S fuel' =>
      stop <- callB sv_should_stop ;;
      cont <- (if negb stop
               then g <- read_global_step ;; ret (g <? max_train_steps self)%Z
               else ret false) ;;
      if cont : bool then
        callU trainer_process ;;
        g' <- callI (sess_run_value trainer_global_step) ;;
        assign_global_step g' ;;
        training_loop self fuel'
      else ret tt
  end.

(** The body of the [with] block, lines 194-209. *)
Definition session_body (self : Worker) (fuel : nat) : Py unit :=
  callU (sess_run trainer_sync) ;;
  callU trainer_start ;;
  g0 <- callI (sess_run_value trainer_global_step) ;;
  assign_global_step g0 ;;
  has_memory <- callB hasattr_trainer_memory ;;
  (if has_memory : bool then
     full <- callB memory_is_full ;;
     if negb full then callU memory_fill else ret tt
   else ret tt) ;;
  g <- read_global_step ;;
  log WARNING (msg_started self g) ;;
  training_loop self fuel ;;
  callU env_close ;;
  callU sv_stop.

(** Making the environment, lines 128-144. *)
Definition make_environment (self : Worker) : Py unit :=
  log DEBUG "making environment." ;;
  if negb (test_mode self) then
    data_master <- getitem (env_kwargs self) "data_master" ;;
    log DEBUG ("worker_" +:+ str_int (task self) +:+ " is data_master: "
               +:+ py_format data_master) ;;
    try_except
      (callU (env_class_call (env_class self) (EnvKwargs (env_kwargs self))))
      (fun _ => raise (SystemExit (msg_btgym_failed self)))
  else
    try_except
      (gym_id <- getitem (env_kwargs self) "gym_id" ;;
       callU (env_class_call (env_class self) (EnvPositional gym_id)))
      (fun _ => raise (SystemExit (msg_atari_failed self))).

(** The worker branch of [run], lines 117-210. *)
Definition run_worker (self : Worker) (fuel : nat) : Py unit :=
  callU (tf_train_Server "worker" (task self) worker_server_config) ;;
  log DEBUG ("worker_" +:+ str_int (task self) +:+ " tf.server started.") ;;
  make_environment self ;;
  log DEBUG ("worker_" +:+ str_int (task self) +:+ ":envronment ok.") ;;
  (if kwargs_clash (trainer_kwargs self) then raise TypeError
   else callU (trainer_class_call (trainer_class self)
                 {| t_task := task self;
                    t_policy_config := policy_config self;
                    t_random_seed := random_seed self;
                    t_kwargs := trainer_kwargs self |})) ;;
  log DEBUG ("worker_" +:+ str_int (task self) +:+ ":trainer ok.") ;;
  global_variables <- callV tf_global_variables ;;
  let vars := variables_to_save global_variables in
  let init_op := variables_initializer vars in
  let init_all_op := global_variables_initializer in
  let saver := {| saver_var_list := vars |} in
  log DEBUG ("worker_" +:+ str_int (task self) +:+ ": vars_to_save:") ;;
  for_each vars (fun v => log DEBUG (name v +:+ ": " +:+ get_shape v)) ;;
  let config := session_config self in
  let logdir := os_path_join (log_dir self) "train" in
  let summary_dir := logdir +:+ "_" +:+ str_int (task self) in
  callU (tf_summary_FileWriter summary_dir) ;;
  callU (tf_train_Supervisor
           {| is_chief := (task self =? 0)%Z;
              logdir := logdir;
              saver := saver;
              summary_op := None;
              init_op := init_op;
              init_fn := init_fn_closure init_all_op;
              ready_op := report_uninitialized_variables vars;
              global_step := trainer_global_step;
              save_model_secs := 300 |}) ;;
  log DEBUG ("worker_" +:+ str_int (task self)
             +:+ ": connecting to the parameter server... ") ;;
  with_ (managed_session_enter config) managed_session_exit
    (with_ as_default_enter as_default_exit (session_body self fuel)) ;;
  g <- read_global_step ;;
  log WARNING (msg_reached self g).

(** [Worker.run], lines 93-210. *)
Definition run (self : Worker) (fuel : nat) : Py unit :=
  callU tf_reset_default_graph ;;
  (if test_mode self then callU import_gym else ret tt) ;;
  callU (ClusterSpec_as_cluster_def (cluster_spec self)) ;;
  if str_in (job_name self) "ps" then
    callU (tf_train_Server (job_name self) (task self) ps_config) ;;
    log DEBUG "parameters_server started." ;;
    callU server_join
  else
    run_worker self fuel.

Definition initial_state : State := {| history := []; var_global_step := None |}.

(** A run from the initial state: its outcome and its events, oldest first. *)
Definition outcome_of (self : Worker) (fuel : nat) (w : World) : Outcome unit :=
  fst (run self fuel w initial_state).
Definition trace_of (self : Worker) (fuel : nat) (w : World) : list Event :=
  rev (history (snd (run self fuel w initial_state))).

(** Exit status of the process: 0 after a normal return of [run]; an
    uncaught exception, or a [SystemExit] raised with a string, gives 1
    (an [External] exception is taken not to be a [SystemExit] that carries
    an exit code of its own). *)
Definition exitcode (o : Outcome unit) : option Z :=
  match o with
  | Done _ => Some 0%Z
  | Raised _ => Some 1%Z
  | Blocked | OutOfFuel => None
  end.

(** ** Observations on a history *)

(** The integer most recently returned by [sess.run(trainer.global_step)]. *)
Fixpoint last_read (h : History) : option Z :=
  match h with
  | [] => None
  | EvI (sess_run_value trainer_global_step) (Returns g) :: _ => Some g
  | _ :: h' => last_read h'
  end.

(** The list most recently returned by [tf.global_variables()]. *)
Fixpoint last_vars (h : History) : option (list TfVariable) :=
  match h with
  | [] => None
  | EvV tf_global_variables (Returns gv) :: _ => Some gv
  | _ :: h' => last_vars h'
  end.

(** The event is a log line or a call that returned. *)
Definition returned (e : Event) : bool :=
  match e with
  | EvU _ (Returns _) | EvB _ (Returns _) | EvI _ (Returns _)
  | EvV _ (Returns _) | EvLog _ _ => true
  | _ => false
  end.

(** Every call recorded in [h] returned. *)
Fixpoint all_returned (h : History) : bool :=
  match h with
  | [] => true
  | e :: h' => returned e && all_returned h'
  end.

(** No event of [h] satisfies [p]. *)
Fixpoint absent (p : Event -> bool) (h : History) : bool :=
  match h with
  | [] => true
  | e :: h' => negb (p e) && absent p h'
  end.

(** Number of events of [h] that satisfy [p]. *)
Definition occurrences (p : Event -> bool) (h : History) : nat :=
  length (List.filter p h).

Definition is_process (e : Event) : bool :=
  match e with EvU trainer_process _ => true | _ => false end.
Definition is_close (e : Event) : bool :=
  match e with EvU env_close _ => true | _ => false end.
Definition is_sv_stop (e : Event) : bool :=
  match e with EvU sv_stop _ => true | _ => false end.
Definition is_fill (e : Event) : bool :=
  match e with EvU memory_fill _ => true | _ => false end.
Definition is_is_full (e : Event) : bool :=
  match e with EvB memory_is_full _ => true | _ => false end.
Definition is_env_make (e : Event) : bool :=
  match e with EvU (env_class_call _ _) _ => true | _ => false end.
Definition is_server (e : Event) : bool :=
  match e with EvU (tf_train_Server _ _ _) _ => true | _ => false end.
Definition is_step_read (e : Event) : bool :=
  match e with EvI (sess_run_value trainer_global_step) _ => true | _ => false end.
Definition is_save (e : Event) : bool :=
  match e with EvU (Saver_save _) _ => true | _ => false end.
Definition is_session_enter (e : Event) : bool :=
  match e with EvU (managed_session_enter _) _ => true | _ => false end.
(** Any use of the trainer: its construction, [sync], [start], the read of
    [global_step], the memory calls and [process]. *)
Definition is_trainer_use (e : Event) : bool :=
  match e with
  | EvU (trainer_class_call _ _) _ | EvU (sess_run trainer_sync) _
  | EvU trainer_start _ | EvU memory_fill _ | EvU trainer_process _
  | EvB hasattr_trainer_memory _ | EvB memory_is_full _
  | EvI (sess_run_value trainer_global_step) _ => true
  | _ => false
  end.

(** [always ok h]: every event of [h] is acceptable after the events that
    precede it. *)
Fixpoint always (ok : Event -> History -> Prop) (h : History) : Prop :=
  match h with
  | [] => True
  | e :: earlier => ok e earlier /\ always ok earlier
  end.

(** ** Weakest preconditions *)

Definition wp {A} (m : Py A) (w : World) (s : State)
  (Q : Outcome A -> State -> Prop) : Prop :=
  Q (fst (m w s)) (snd (m w s)).

(** What a sequence passes on after its first part. *)
Definition after {A B} (f : A -> Py B) (w : World)
  (Q : Outcome B -> State -> Prop) (o : Outcome A) (s : State) : Prop :=
  match o with
  | Done a => wp (f a) w s Q
  | Raised e => Q (Raised e) s
  | Blocked => Q Blocked s
  | OutOfFuel => Q OutOfFuel s
  end.

(** What a [try]/[except] passes on after the guarded part. *)
Definition handled {A} (handler : Exn -> Py A) (w : World)
  (Q : Outcome A -> State -> Prop) (o : Outcome A) (s : State) : Prop :=
  match o with
  | Raised e => wp (handler e) w s Q
  | _ => Q o s
  end.

(** What a [with] block passes on after its body. *)
Definition leaving (exit_ : option Exn -> BCall) (w : World)
  (Q : Outcome unit -> State -> Prop) (o : Outcome unit) (s : State) : Prop :=
  match o with
  | Done _ => wp (callB (exit_ None) ;; ret tt) w s Q
  | Raised e =>
      wp (suppress <- callB (exit_ (Some e)) ;;
          if suppress then ret tt else raise e) w s Q
  | Blocked => Q Blocked s
  | OutOfFuel => Q OutOfFuel s
  end.

(** What a [with] block passes on after its enter call. *)
Definition entering (body : Py unit) (exit_ : option Exn -> BCall) (w : World)
  (Q : Outcome unit -> State -> Prop) (o : Outcome unit) (s : State) : Prop :=
  match o with
  | Done _ => wp body w s (leaving exit_ w Q)
  | Raised e => Q (Raised e) s
  | Blocked => Q Blocked s
  | OutOfFuel => Q OutOfFuel s
  end.

(** ** What every history of [run] satisfies *)

(** [holds og P]: the optional value is present and satisfies [P]. *)
Definition holds {A} (og : option A) (P : A -> Prop) : Prop :=
match og with
| Some g => P g
| None => False
end.

Section Monitors.
Variable self : Worker.

(** The loop condition was just tested and holds: the stop flag was read
    unset and the last value read for the global step is below the bound. *)
Definition loop_entered (h : History) : Prop :=
  match h with
  | EvB sv_should_stop (Returns false) :: rest =>
      holds (last_read rest) (fun g => (g < max_train_steps self)%Z)
  | _ => False
  end.

(** The loop condition was just tested and fails. *)
Definition loop_left (h : History) : Prop :=
  match h with
  | EvB sv_should_stop (Returns true) :: _ => True
  | EvB sv_should_stop (Returns false) :: rest =>
      holds (last_read rest) (fun g => (max_train_steps self <= g)%Z)
  | _ => False
  end.

Definition ok_process (e : Event) (earlier : History) : Prop :=
  match e with
  | EvU trainer_process _ => loop_entered earlier
  | _ => True
  end.

Definition ok_close (e : Event) (earlier : History) : Prop :=
  match e with
  | EvU env_close _ =>
      loop_left earlier /\ all_returned earlier = true
      /\ absent is_close earlier = true
  | EvU sv_stop _ =>
      match earlier with
      | EvU env_close (Returns _) :: _ => True
      | _ => False
      end
  | _ => True
  end.

(** The five events before a call of [fill], newest first. *)
Definition before_fill (earlier : History) : Prop :=
  match earlier with
  | EvB memory_is_full (Returns false)
    :: EvB hasattr_trainer_memory (Returns true)
    :: EvI (sess_run_value trainer_global_step) (Returns _)
    :: EvU trainer_start (Returns _)
    :: EvU (sess_run trainer_sync) (Returns _) :: _ => True
  | _ => False
  end.

Definition before_is_full (earlier : History) : Prop :=
  match earlier with
  | EvB hasattr_trainer_memory (Returns true) :: _ => True
  | _ => False
  end.

Definition ok_fill (e : Event) (earlier : History) : Prop :=
  match e with
  | EvU memory_fill _ =>
      before_fill earlier
      /\ absent is_process earlier = true /\ absent is_fill earlier = true
  | EvB memory_is_full _ =>
      before_is_full earlier
      /\ absent is_is_full earlier = true /\ absent is_fill earlier = true
  | _ => True
  end.

(** The arguments [run] gives to [tf.train.Supervisor] when
    [tf.global_variables()] returned [gv], lines 180-190. *)
Definition supervisor_args (gv : list TfVariable) : SupervisorArgs :=
  {| is_chief := (task self =? 0)%Z;
     logdir := os_path_join (log_dir self) "train";
     saver := {| saver_var_list := variables_to_save gv |};
     summary_op := None;
     init_op := variables_initializer (variables_to_save gv);
     init_fn := init_fn_closure global_variables_initializer;
     ready_op := report_uninitialized_variables (variables_to_save gv);
     global_step := trainer_global_step;
     save_model_secs := 300 |}.

Definition ok_supervisor (e : Event) (earlier : History) : Prop :=
  match e with
  | EvU (tf_train_Supervisor args) _ =>
      holds (last_vars earlier) (fun gv => args = supervisor_args gv)
  | EvU (Saver_save _) _ => False
  | EvU (sess_run fetch) _ => fetch = trainer_sync
  | _ => True
  end.

(** The arguments of [tf.train.Server], lines 106-111 and 117-125: the
    role decides the job name and the configuration. *)
Definition server_args_ok (j : string) (t : Z) (c : ConfigProto) : Prop :=
  t = task self
  /\ j = (if str_in (job_name self) "ps" then job_name self else "worker")
  /\ c = (if str_in (job_name self) "ps" then ps_config
          else worker_server_config).

Definition ok_server (e : Event) (earlier : History) : Prop :=
  match e with
  | EvU (tf_train_Server j t c) _ => server_args_ok j t c
  | _ => True
  end.

Definition ok_env (e : Event) (earlier : History) : Prop :=
  match e with
  | EvU (env_class_call _ _) _ =>
      absent is_env_make earlier = true
      /\ absent is_trainer_use earlier = true
      /\ absent is_session_enter earlier = true
  | _ => True
  end.

(** The newest event is the return of the session's [__exit__]. *)
Definition session_left (h : History) : bool :=
  match h with
  | EvB (managed_session_exit _) (Returns _) :: _ => true
  | _ => false
  end.

Definition ok_log (e : Event) (earlier : History) : Prop :=
  match e with
  | EvLog WARNING msg =>
      holds (last_read earlier)
        (fun g => msg = if session_left earlier
                        then msg_reached self g else msg_started self g)
  | _ => True
  end.

(** What the event after the newest event of [earlier] has to be. *)
Definition expects (earlier : History) (e : Event) : Prop :=
  match earlier with
  | EvU trainer_process (Returns _) :: _ => is_step_read e = true
  | EvB memory_is_full (Returns false) :: _ => is_fill e = true
  | EvB sv_should_stop (Returns _) :: _ =>
      is_process e = true \/ is_close e = true
  | EvU env_close (Returns _) :: _ => is_sv_stop e = true
  | EvU env_close (Raises x) :: _ =>
      match e with
      | EvB (as_default_exit (Some y)) _ => y = x
      | _ => False
      end
  | EvU (env_class_call _ _) (Raises _) :: _ => False
  | EvU (env_class_call _ _) Diverges :: _ => False
  | EvU (ClusterSpec_as_cluster_def _) (Returns _) :: _ => is_server e = true
  | EvU server_join _ :: _ => False
  | _ => True
  end.

(** The newest event of [h] is a call after which [run] always makes
    another call. *)
Definition pending (h : History) : bool :=
  match h with
  | EvU trainer_process (Returns _) :: _ => true
  | EvB memory_is_full (Returns false) :: _ => true
  | EvB sv_should_stop (Returns _) :: _ => true
  | EvU env_close (Returns _) :: _ => true
  | EvU env_close (Raises _) :: _ => true
  | EvU (ClusterSpec_as_cluster_def _) (Returns _) :: _ => true
  | _ => false
  end.

(** The newest event of [h] is a call of the environment class that
    raised. *)
Definition env_raised (h : History) : bool :=
  match h with
  | EvU (env_class_call _ _) (Raises _) :: _ => true
  | _ => false
  end.

(** The newest event of [h] is a call after which [run] makes no other:
    a failed call of the environment class, or [server.join()]. *)
Definition terminal (h : History) : bool :=
  match h with
  | EvU (env_class_call _ _) (Raises _) :: _ => true
  | EvU (env_class_call _ _) Diverges :: _ => true
  | EvU server_join _ :: _ => true
  | _ => false
  end.

(** The newest event of [h] puts no condition on the next one. *)
Definition settled (h : History) : bool :=
  negb (pending h) && negb (terminal h).

(** The outcome of a run that ended in [server.join()] is the reply of
    that call. *)
Definition ended_by_join (o : Outcome unit) (h : History) : Prop :=
  match h with
  | EvU server_join (Returns _) :: _ => o = Done tt
  | EvU server_join (Raises x) :: _ => o = Raised x
  | EvU server_join Diverges :: _ => o = Blocked
  | _ => True
  end.

(** The events of the parameter-server branch. *)
Definition ps_event (e : Event) : bool :=
  match e with
  | EvU tf_reset_default_graph _ | EvU import_gym _
  | EvU (ClusterSpec_as_cluster_def _) _ | EvU (tf_train_Server _ _ _) _
  | EvU server_join _ | EvLog DEBUG _ => true
  | _ => false
  end.

Definition ps_events (h : History) : bool := forallb ps_event h.

(** The newest event of [h] is not the return of [tf.train.Server] nor a
    log line. *)
Definition server_joined (h : History) : bool :=
  match h with
  | EvU (tf_train_Server _ _ _) (Returns _) :: _ => false
  | EvLog _ _ :: _ => false
  | _ => true
  end.

Definition ok (e : Event) (earlier : History) : Prop :=
  ok_process e earlier /\ ok_close e earlier /\ ok_fill e earlier
  /\ ok_supervisor e earlier /\ ok_server e earlier /\ ok_env e earlier
  /\ ok_log e earlier /\ expects earlier e.

(** The message of the [SystemExit] raised when the environment class
    fails, lines 136 and 144. *)
Definition msg_env_failed : string :=
  if test_mode self then msg_atari_failed self else msg_btgym_failed self.

(** The newest events are the session's [__exit__] and the last log line. *)
Definition completed (h : History) : bool :=
  match h with
  | EvLog WARNING _ :: EvB (managed_session_exit _) (Returns _) :: _ => true
  | _ => false
  end.

(** What holds when [run] has ended with outcome [o] in state [s]. *)
Definition fin (o : Outcome unit) (s : State) : Prop :=
  var_global_step s = last_read (history s)
  /\ pending (history s) = false
  /\ (env_raised (history s) = true ->
      o = Raised (SystemExit msg_env_failed))
  /\ (o = Done tt -> str_in (job_name self) "ps" = false ->
      completed (history s) = true)
  /\ ended_by_join o (history s)
  /\ (str_in (job_name self) "ps" = true ->
      ps_events (history s) = true /\ server_joined (history s) = true).

Definition Inv (o : Outcome unit) (s : State) : Prop :=
  always ok (history s) /\ fin o s.

End Monitors.

Arguments ok self e earlier /.
Arguments fin self o s /.
Arguments Inv self o s /.
Arguments settled !h /.
Arguments server_args_ok self j t c /.

(** What holds whenever the loop condition is about to be tested. *)
Definition LoopInv (self : Worker) (s : State) : Prop :=
  always (ok self) (history s) /\ settled (history s) = true
  /\ (exists g, var_global_step s = Some g /\ last_read (history s) = Some g)
  /\ all_returned (history s) = true /\ absent is_close (history s) = true.

(** What holds when the loop has ended with outcome [o]. *)
Definition LoopPost (self : Worker) (o : Outcome unit) (s : State) : Prop :=
  always (ok self) (history s)
  /\ var_global_step s = last_read (history s)
  /\ match o with
     | Done _ =>
         loop_left self (history s) /\ all_returned (history s) = true
         /\ absent is_close (history s) = true
     | _ => settled (history s) = true
     end.

(** What holds between the call of [tf.global_variables()], which returned
    [gv], and the session. *)
Definition Calm (self : Worker) (gv : list TfVariable) (s : State) : Prop :=
  always (ok self) (history s) /\ settled (history s) = true
  /\ var_global_step s = None /\ last_read (history s) = None
  /\ last_vars (history s) = Some gv
  /\ all_returned (history s) = true
  /\ absent is_close (history s) = true
  /\ absent is_fill (history s) = true
  /\ absent is_is_full (history s) = true
  /\ absent is_process (history s) = true.

(** ** Concrete workers and worlds *)

(** A worker of the topology [{ps: [addrA], worker: [addrB, addrC]}] with
    rank 0 and [max_train_steps = 10], under the given role name. *)
Definition demo_worker (role : string) : Worker :=
  {| env_class := PyRef "BTgymEnv";
     env_kwargs := {[ "data_master" := PyBool true ]};
     policy_config := PyRef "policy_config";
     trainer_class := PyRef "A3C";
     trainer_kwargs := ∅;
     cluster_spec := {[ "ps" := ["addrA"]; "worker" := ["addrB"; "addrC"] ]};
     job_name := role;
     task := 0;
     log_dir := "/tmp/log";
     max_train_steps := 10;
     random_seed := None;
     test_mode := false |}.

Definition demo_variables : list TfVariable :=
  [ {| name := "global/W"; get_shape := "(3, 4)" |};
    {| name := "local/W"; get_shape := "(3, 4)" |} ].

(** A world whose calls return, except as [u] says: the trainer has a
    memory that is not full, the stop flag is never set, and the global
    step read at the [n]-th interaction is [n - 18]. *)
Definition world_with (u : UCall -> Reply unit) : World :=
  {| w_unit := fun _ c => u c;
     w_bool := fun _ c =>
       match c with
       | hasattr_trainer_memory => Returns true
       | _ => Returns false
       end;
     w_int := fun n _ => Returns (Z.of_nat n - 18)%Z;
     w_vars := fun _ _ => Returns demo_variables |}.

Definition calm_world : World := world_with (fun _ => Returns tt).

(** [server.join()] never returns. *)
Definition joining_world : World :=
  world_with (fun c => match c with server_join => Diverges | _ => Returns tt end).

(** Every training iteration fails. *)
Definition failing_process_world : World :=
  world_with (fun c =>
    match c with
    | trainer_process => Raises (External "IterationError")
    | _ => Returns tt
    end).

(** [env.close()] fails. *)
Definition failing_close_world : World :=
  world_with (fun c =>
    match c with
    | env_close => Raises (External "CloseError")
    | _ => Returns tt
    end).

(** The environment class fails. *)
Definition failing_env_world : World :=
  world_with (fun c =>
    match c with
    | env_class_call _ _ => Raises (External "EnvError")
    | _ => Returns tt
    end).

(** The history of the rank-0 worker in the calm world, newest first. *)
Definition demo_history : History :=
  history (snd (run (demo_worker "worker") 20 calm_world initial_state)).

(** [memory.is_full()] returned false. *)
Definition not_full (e : Event) : bool :=
  match e with
  | EvB memory_is_full (Returns false) => true
  | _ => false
  end.

(** [env.close()] returned. *)
Definition closed (e : Event) : bool :=
  match e with
  | EvU env_close (Returns _) => true
  | _ => false
  end.

(** In the parameter-server branch a server that started is joined. *)
Definition joins (o : Outcome unit) (s : State) : Prop :=
  forall later j t c earlier,
    history s = later ++ EvU (tf_train_Server j t c) (Returns tt) :: earlier ->
    exists rj, later = [EvU server_join rj; EvLog DEBUG "parameters_server started."].


(** ** The role dispatch *)

(** How a run ends whose last call got the reply [r]. *)
Definition reply_outcome (r : Reply unit) : Outcome unit :=
  match r with
  | Returns _ => Done tt
  | Raises x => Raised x
  | Diverges => Blocked
  end.

(** The calls of lines 96-102, made before any server is started. *)
Definition before_server (c : UCall) : bool :=
  match c with
  | tf_reset_default_graph | import_gym | ClusterSpec_as_cluster_def _ => true
  | _ => false
  end.

(** The events of lines 96-102 when each call returns, newest first. *)
Definition preamble (self : Worker) : History :=
  EvU (ClusterSpec_as_cluster_def (cluster_spec self)) (Returns tt)
  :: (if test_mode self then [EvU import_gym (Returns tt)] else [])
  ++ [EvU tf_reset_default_graph (Returns tt)].

(** The same process under the role name [role]. *)
Definition under_role (role : string) (self : Worker) : Worker :=
  {| env_class := env_class self;
     env_kwargs := env_kwargs self;
     policy_config := policy_config self;
     trainer_class := trainer_class self;
     trainer_kwargs := trainer_kwargs self;
     cluster_spec := cluster_spec self;
     job_name := role;
     task := task self;
     log_dir := log_dir self;
     max_train_steps := max_train_steps self;
     random_seed := random_seed self;
     test_mode := test_mode self |}.

(** Running [m] only adds events to the history. *)
Definition grows {A} (m : Py A) : Prop :=
  forall w s, exists later, history (snd (m w s)) = later ++ history s.

(** The message of line 126. *)
Definition msg_server_started (self : Worker) : string :=
  "worker_" +:+ str_int (task self) +:+ " tf.server started.".

(** The run ended in lines 96-102: its last call is one of them and did
    not return, and the run ended as that call did. *)
Definition stopped_before_server (o : Outcome unit) (h : History) : Prop :=
  exists c r rest,
    h = EvU c r :: rest /\ before_server c = true
    /\ returned (EvU c r) = false /\ all_returned rest = true
    /\ o = reply_outcome r.

(** The run got to line 117: after the calls of lines 96-102 it called
    [tf.train.Server] as a worker; when that call returned, the next two
    events are the log lines of lines 126 and 128, and when it did not, it
    is the last event and the run ended as it did. *)
Definition started_as_worker (self : Worker) (o : Outcome unit) (h : History)
  : Prop :=
  exists later r,
    h = later ++ EvU (tf_train_Server "worker" (task self) worker_server_config) r
                 :: preamble self
    /\ match r with
       | Returns _ =>
           exists later',
             later = later' ++ [EvLog DEBUG "making environment.";
                                EvLog DEBUG (msg_server_started self)]
       | _ => later = [] /\ o = reply_outcome r
       end.

(** The run of a parameter server ended before [server.join()]: its last
    call is one of lines 96-102 or the server start, and did not return. *)
Definition stopped_before_join (o : Outcome unit) (h : History) : Prop :=
  exists c r rest,
    h = EvU c r :: rest
    /\ (before_server c || is_server (EvU c r)) = true
    /\ returned (EvU c r) = false /\ all_returned rest = true
    /\ o = reply_outcome r.

(** The events of a parameter server that got to [server.join()], which
    replied [rj]: lines 96-114, newest first. *)
Definition ps_trace (self : Worker) (rj : Reply unit) : History :=
  EvU server_join rj
  :: EvLog DEBUG "parameters_server started."
  :: EvU (tf_train_Server (job_name self) (task self) ps_config) (Returns tt)
  :: preamble self.


(** ** The order of the calls of [run] *)

(** Some event of [h] satisfies [p]. *)
Fixpoint occurs (p : Event -> bool) (h : History) : bool :=
  match h with
  | [] => false
  | e :: h' => p e || occurs p h'
  end.

(** [provided b P]: [P] is asked for only when [b] holds. *)
Definition provided (b : bool) (P : Prop) : Prop :=
  if b then P else True.

Definition is_trainer_make (e : Event) : bool :=
  match e with EvU (trainer_class_call _ _) _ => true | _ => false end.
Definition is_vars (e : Event) : bool :=
  match e with EvV tf_global_variables _ => true | _ => false end.
Definition is_writer (e : Event) : bool :=
  match e with EvU (tf_summary_FileWriter _) _ => true | _ => false end.
Definition is_supervisor (e : Event) : bool :=
  match e with EvU (tf_train_Supervisor _) _ => true | _ => false end.
Definition is_session_exit (e : Event) : bool :=
  match e with EvB (managed_session_exit _) _ => true | _ => false end.
Definition is_log (e : Event) : bool :=
  match e with EvLog _ _ => true | _ => false end.

(** One of the two [__exit__] calls of the [with] statement. *)
Definition is_exit (e : Event) : bool :=
  match e with
  | EvB (as_default_exit _) _ | EvB (managed_session_exit _) _ => true
  | _ => false
  end.

(** An [__exit__] call that was handed an exception and suppressed it. *)
Definition is_suppression (e : Event) : bool :=
  match e with
  | EvB (as_default_exit (Some _)) (Returns true) => true
  | EvB (managed_session_exit (Some _)) (Returns true) => true
  | _ => false
  end.

(** The calls of the [with] block, lines 193-209: everything between the
    return of the session's enter call and its [__exit__], that call
    included. *)
Definition is_session_op (e : Event) : bool :=
  match e with
  | EvU as_default_enter _ | EvU (sess_run _) _ | EvU trainer_start _
  | EvU memory_fill _ | EvU trainer_process _ | EvU env_close _
  | EvU sv_stop _ | EvB _ _ | EvI _ _ => true
  | _ => false
  end.

(** The session has been entered and not left. *)
Fixpoint in_session (h : History) : bool :=
  match h with
  | [] => false
  | EvU (managed_session_enter _) (Returns _) :: _ => true
  | EvU (managed_session_enter _) _ :: _ => false
  | EvB (managed_session_exit _) _ :: _ => false
  | _ :: h' => in_session h'
  end.

(** The arguments of the environment class, lines 133 and 141. *)
Definition env_args (self : Worker) : option EnvArgs :=
  if test_mode self
  then match env_kwargs self !! "gym_id" with
       | Some gym_id => Some (EnvPositional gym_id)
       | None => None
       end
  else Some (EnvKwargs (env_kwargs self)).

(** The arguments of the trainer class, lines 148-155. *)
Definition trainer_args (self : Worker) : TrainerArgs :=
  {| t_task := task self;
     t_policy_config := policy_config self;
     t_random_seed := random_seed self;
     t_kwargs := trainer_kwargs self |}.

(** [summary_dir], lines 175-176. *)
Definition summary_dir (self : Worker) : string :=
  os_path_join (log_dir self) "train" +:+ "_" +:+ str_int (task self).

Section Order.
Variable self : Worker.

(** After a call that did not return, [run] makes no call but the two
    [__exit__] calls. *)
Definition fail_fast (e : Event) (earlier : History) : Prop :=
  provided (negb (is_log e) && negb (is_exit e))
    (all_returned earlier = true).

Definition inside (e : Event) (earlier : History) : Prop :=
  provided (is_session_op e) (in_session earlier = true).

Definition single (e : Event) (earlier : History) : Prop :=
  provided (is_server e) (absent is_server earlier = true)
  /\ provided (is_trainer_make e) (absent is_trainer_make earlier = true)
  /\ provided (is_vars e) (absent is_vars earlier = true)
  /\ provided (is_writer e) (absent is_writer earlier = true)
  /\ provided (is_supervisor e) (absent is_supervisor earlier = true)
  /\ provided (is_session_enter e) (absent is_session_enter earlier = true)
  /\ provided (is_session_exit e) (absent is_session_exit earlier = true).

Definition prepared (e : Event) (earlier : History) : Prop :=
  match e with
  | EvU (env_class_call _ _) _ => occurs is_server earlier = true
  | EvU (trainer_class_call _ _) _ => occurs is_env_make earlier = true
  | EvU (managed_session_enter _) _ =>
      occurs is_server earlier = true
      /\ occurs is_env_make earlier = true
      /\ occurs is_trainer_make earlier = true
      /\ occurs is_vars earlier = true
      /\ occurs is_writer earlier = true
      /\ occurs is_supervisor earlier = true
  | _ => True
  end.

Definition given (e : Event) (earlier : History) : Prop :=
  match e with
  | EvU (ClusterSpec_as_cluster_def spec) _ => spec = cluster_spec self
  | EvU (env_class_call cls a) _ =>
      cls = env_class self /\ Some a = env_args self
  | EvU (trainer_class_call cls a) _ =>
      cls = trainer_class self /\ a = trainer_args self
  | EvU (tf_summary_FileWriter d) _ => d = summary_dir self
  | EvU (managed_session_enter c) _ => c = session_config self
  | EvI (sess_run_value fetch) _ => fetch = trainer_global_step
  | _ => True
  end.

Definition ok2 (e : Event) (earlier : History) : Prop :=
  fail_fast e earlier /\ inside e earlier /\ single e earlier
  /\ prepared e earlier /\ given e earlier.

(** Where the exception [x] that ends a run comes from, read off the
    newest event. *)
Definition explains (h : History) (x : Exn) : Prop :=
  match h with
  | EvU (env_class_call _ _) (Raises _) :: _ =>
      x = SystemExit (msg_env_failed self)
  | EvU _ (Raises y) :: _ => x = y
  | EvB _ (Raises y) :: _ => x = y
  | EvI _ (Raises y) :: _ => x = y
  | EvV _ (Raises y) :: _ => x = y
  | EvB (managed_session_exit (Some y)) (Returns false) :: _ => x = y
  | EvB (managed_session_exit _) (Returns _) :: _ =>
      x = UnboundLocalError "global_step"
  | EvLog DEBUG _ :: _ =>
      x = KeyError "data_master" \/ x = TypeError
      \/ x = SystemExit (msg_atari_failed self)
  | _ => False
  end.

Definition explained (o : Outcome unit) (h : History) : Prop :=
  match o with
  | Raised x => explains h x
  | _ => True
  end.

Definition fin2 (o : Outcome unit) (s : State) : Prop :=
  explained o (history s)
  /\ (o = Done tt -> absent is_suppression (history s) = true ->
      all_returned (history s) = true)
  /\ (in_session (history s) = true -> o = Blocked \/ o = OutOfFuel).

Definition Inv2 (o : Outcome unit) (s : State) : Prop :=
  always ok2 (history s) /\ fin2 o s.

End Order.

Arguments provided !b P /.
Arguments fail_fast e earlier /.
Arguments inside e earlier /.
Arguments single e earlier /.
Arguments ok2 self e earlier /.
Arguments fin2 self o s /.
Arguments Inv2 self o s /.

Definition LoopInv2 (self : Worker) (s : State) : Prop :=
  always (ok2 self) (history s)
  /\ all_returned (history s) = true
  /\ in_session (history s) = true
  /\ absent is_session_exit (history s) = true
  /\ var_global_step s <> None.

Definition LoopPost2 (self : Worker) (o : Outcome unit) (s : State) : Prop :=
  always (ok2 self) (history s)
  /\ in_session (history s) = true
  /\ absent is_session_exit (history s) = true
  /\ var_global_step s <> None
  /\ (o = Done tt -> all_returned (history s) = true).

Definition Calm2 (self : Worker) (s : State) : Prop :=
  always (ok2 self) (history s)
  /\ var_global_step s = None
  /\ all_returned (history s) = true
  /\ in_session (history s) = false
  /\ absent is_writer (history s) = true
  /\ absent is_supervisor (history s) = true
  /\ absent is_session_enter (history s) = true
  /\ absent is_session_exit (history s) = true
  /\ occurs is_server (history s) = true
  /\ occurs is_env_make (history s) = true
  /\ occurs is_trainer_make (history s) = true
  /\ occurs is_vars (history s) = true.

(** What the loop leaves behind when it ends through its condition. *)
Definition loop_done (self : Worker) (o : Outcome unit) (s : State) : Prop :=
  o = Done tt
  /\ exists g, var_global_step s = Some g
               /\ last_read (history s) = Some g
               /\ (max_train_steps self <= g)%Z.

(** A run that went through: [env.close()] was called and the last line
    logs the global step last read, which has reached the bound. *)
Definition completed_run (self : Worker) (o : Outcome unit) (s : State)
  : Prop :=
  o = Done tt
  /\ occurs is_close (history s) = true
  /\ exists g rest,
       history s = EvLog WARNING (msg_reached self g) :: rest
       /\ last_read rest = Some g
       /\ (max_train_steps self <= g)%Z.

(** [tf.train.Server] returned. *)
Definition server_started (e : Event) : bool :=
  match e with
  | EvU (tf_train_Server _ _ _) (Returns _) => true
  | _ => false
  end.

(** The environment class returned. *)
Definition env_made (e : Event) : bool :=
  match e with
  | EvU (env_class_call _ _) (Returns _) => true
  | _ => false
  end.

(** The run makes no call of a kind in [never], and once a call of the
    kind [reached] has been made the run ends with the exception [x]. *)
Definition stops_with (x : Exn) (reached never : Event -> bool)
  (o : Outcome unit) (s : State) : Prop :=
  absent never (history s) = true
  /\ (occurs reached (history s) = true -> o = Raised x).

(** What a run may not do once the trainer class cannot be called. *)
Definition needs_trainer (e : Event) : bool :=
  is_trainer_use e || is_session_enter e || is_close e.

(** ** [Worker.__init__] *)

(** A configuration dictionary of the kind [env_config] and
    [trainer_config] are: it may hold a class under ['class_ref'] and a
    dictionary of keyword arguments under ['kwargs']. *)
Record ClassConfig := {
  class_ref_entry : option PyVal;
  kwargs_entry : option (gmap string PyVal)
}.

(** The arguments of [Worker.__init__], lines 47-59. *)
Record InitArgs := {
  arg_env_config : ClassConfig;
  arg_policy_config : PyVal;
  arg_trainer_config : ClassConfig;
  arg_cluster_spec : gmap string (list string);
  arg_job_name : string;
  arg_task : Z;
  arg_log_dir : string;
  arg_log : PyVal;
  arg_log_level : PyVal;
  arg_max_train_steps : Z;
  arg_random_seed : option Z;
  arg_test_mode : bool
}.

(** The calls [__init__] makes: [multiprocessing.Process.__init__], line
    75, and [logging.basicConfig()] and [self.log.setLevel(log_level)],
    lines 87 and 89. *)
Inductive InitCall :=
| Process_init
| logging_basicConfig
| Logger_setLevel (logger : PyVal) (level : PyVal).

(** The calls of [__init__] with their replies; [logging.getLogger(name)],
    line 88, returns the logger object. *)
Inductive InitEvent :=
| IvU (c : InitCall) (r : Reply unit)
| IvGetLogger (name : string) (r : Reply PyVal).

(** The world answers the [n]-th call of a construction. *)
Record InitWorld := {
  iw_unit : nat -> InitCall -> Reply unit;
  iw_getLogger : nat -> string -> Reply PyVal
}.

(** The monad of [__init__]: exceptions, and the calls made so far,
    newest first. *)
Definition Init (A : Type) : Type :=
  InitWorld -> list InitEvent -> Outcome A * list InitEvent.

Definition init_ret {A} (a : A) : Init A := fun _ h => (Done a, h).

Definition init_raise {A} (e : Exn) : Init A := fun _ h => (Raised e, h).

Definition init_bind {A B} (m : Init A) (f : A -> Init B) : Init B :=
  fun iw h =>
    match m iw h with
    | (Done a, h') => f a iw h'
    | (Raised e, h') => (Raised e, h')
    | (Blocked, h') => (Blocked, h')
    | (OutOfFuel, h') => (OutOfFuel, h')
    end.

Definition init_reply {A} (mk : Reply A -> InitEvent) (r : Reply A)
  (h : list InitEvent) : Outcome A * list InitEvent :=
  match r with
  | Returns a => (Done a, mk (Returns a) :: h)
  | Raises e => (Raised e, mk (Raises e) :: h)
  | Diverges => (Blocked, mk Diverges :: h)
  end.

Definition init_call (c : InitCall) : Init unit :=
  fun iw h => init_reply (IvU c) (iw_unit iw (length h) c) h.

(** [logging.getLogger(name)]. *)
Definition logging_getLogger (name : string) : Init PyVal :=
  fun iw h => init_reply (IvGetLogger name) (iw_getLogger iw (length h) name) h.

(** [d[key]] on a configuration dictionary. *)
Definition item {A} (entry : option A) (key : string) : Init A :=
  match entry with
  | Some v => init_ret v
  | None => init_raise (KeyError key)
  end.

Declare Scope init_scope.
Delimit Scope init_scope with init.
Notation "x <- m ;; k" := (init_bind m (fun x => k))
  (at level 100, m at next level, right associativity) : init_scope.
Notation "m ;; k" := (init_bind m (fun _ => k))
  (at level 100, right associativity) : init_scope.

(** ['{}_{}'.format(job, rank)], line 88. *)
Definition logger_name_of (job : string) (rank : Z) : string :=
  job +:+ "_" +:+ str_int rank.

(** [Worker.__init__], lines 75-91.  The four dictionary lookups come
    first and in this order; [self.log = log] of line 86 is overwritten
    two lines later by the logger [logging.getLogger] returns for the name
    made of the role and the rank, and [setLevel] is called on that
    logger.  The result is [self] and [self.log]. *)
Definition Worker_init (a : InitArgs) : Init (Worker * PyVal) :=
  (init_call Process_init ;;
   env_cls <- item (class_ref_entry (arg_env_config a)) "class_ref" ;;
   env_kw <- item (kwargs_entry (arg_env_config a)) "kwargs" ;;
   trainer_cls <- item (class_ref_entry (arg_trainer_config a)) "class_ref" ;;
   trainer_kw <- item (kwargs_entry (arg_trainer_config a)) "kwargs" ;;
   init_call logging_basicConfig ;;
   lg <- logging_getLogger (logger_name_of (arg_job_name a) (arg_task a)) ;;
   init_call (Logger_setLevel lg (arg_log_level a)) ;;
   init_ret ({| env_class := env_cls;
                env_kwargs := env_kw;
                policy_config := arg_policy_config a;
                trainer_class := trainer_cls;
                trainer_kwargs := trainer_kw;
                cluster_spec := arg_cluster_spec a;
                job_name := arg_job_name a;
                task := arg_task a;
                log_dir := arg_log_dir a;
                max_train_steps := arg_max_train_steps a;
                random_seed := arg_random_seed a;
                test_mode := arg_test_mode a |}, lg))%init.

(** A construction from scratch: its outcome and the calls it made. *)
Definition construct (a : InitArgs) (iw : InitWorld)
  : Outcome (Worker * PyVal) * list InitEvent :=
  Worker_init a iw [].

(** The exception a call of [__init__] raised, if it raised one. *)
Definition init_failed (e : InitEvent) : option Exn :=
  match e with
  | IvU _ (Raises x) | IvGetLogger _ (Raises x) => Some x
  | _ => None
  end.

(** A call into the [logging] module, lines 87-89. *)
Definition is_logging (e : InitEvent) : bool :=
  match e with
  | IvU Process_init _ => false
  | _ => true
  end.

(** The character [c] occurs in [s]. *)
Fixpoint contains_char (c : ascii) (s : string) : bool :=
  match s with
  | EmptyString => false
  | String c' s' => Ascii.eqb c c' || contains_char c s'
  end.

(** A world in which every call of [__init__] returns; the logger
    returned for a name is a reference made from this name. *)
Definition calm_init_world : InitWorld :=
  {| iw_unit := fun _ _ => Returns tt;
     iw_getLogger := fun _ name => Returns (PyRef ("logger:" +:+ name)) |}.

(** The arguments from which the demo worker of rank [rank] is built. *)
Definition demo_args (env_kw : option (gmap string PyVal)) (rank : Z) : InitArgs :=
  {| arg_env_config :=
       {| class_ref_entry := Some (PyRef "BTgymEnv"); kwargs_entry := env_kw |};
     arg_policy_config := PyRef "policy_config";
     arg_trainer_config :=
       {| class_ref_entry := Some (PyRef "A3C"); kwargs_entry := Some ∅ |};
     arg_cluster_spec := {[ "ps" := ["addrA"]; "worker" := ["addrB"; "addrC"] ]};
     arg_job_name := "worker";
     arg_task := rank;
     arg_log_dir := "/tmp/log";
     arg_log := PyRef "parent_logger";
     arg_log_level := PyInt 30;
     arg_max_train_steps := 10;
     arg_random_seed := None;
     arg_test_mode := false |}.

(** * Verification *)

(** ** The Python primitives on concrete values *)

Example str_in_ps :
  (str_in "ps" "ps", str_in "p" "ps", str_in "s" "ps", str_in "" "ps",
   str_in "worker" "ps", str_in "pss" "ps", str_in "sp" "ps")
  = (true, true, true, true, false, false, false).
Proof. reflexivity. Qed.

Example str_int_values :
  (str_int 0, str_int 12, str_int (-7)) = ("0", "12", "-7").
Proof. vm_compute. reflexivity. Qed.

Example os_path_join_values :
  (os_path_join "/tmp/log" "train", os_path_join "/tmp/log/" "train",
   os_path_join "" "train")
  = ("/tmp/log/train", "/tmp/log/train", "train").
Proof. reflexivity. Qed.

(** ** Rules of the weakest precondition *)

Section WpRules.
Context {A : Type} (w : World) (s : State) (Q : Outcome A -> State -> Prop).

Lemma wp_ret (a : A) : Q (Done a) s -> wp (ret a) w s Q.
Proof. exact (fun H => H). Qed.

Lemma wp_raise (e : Exn) : Q (Raised e) s -> wp (raise e) w s Q.
Proof. exact (fun H => H). Qed.

Lemma wp_out_of_fuel : Q OutOfFuel s -> wp out_of_fuel w s Q.
Proof. exact (fun H => H). Qed.

Lemma wp_bind {B} (m : Py B) (f : B -> Py A) :
  wp m w s (after f w Q) -> wp (bind m f) w s Q.
Proof.
  unfold wp, bind, after. destruct (m w s) as [[b|e| |] s']; simpl; auto.
Qed.

Lemma wp_try_except (m : Py A) (handler : Exn -> Py A) :
  wp m w s (handled handler w Q) -> wp (try_except m handler) w s Q.
Proof.
  unfold wp, try_except, handled. destruct (m w s) as [[b|e| |] s']; simpl; auto.
Qed.

Lemma wp_consequence (m : Py A) (P : Outcome A -> State -> Prop) :
  wp m w s P -> (forall o s', P o s' -> Q o s') -> wp m w s Q.
Proof. unfold wp. auto. Qed.
End WpRules.

Section WpCalls.
Context (w : World) (s : State).

Lemma wp_reply {A} (mk : Reply A -> Event) (r : Reply A)
  (Q : Outcome A -> State -> Prop) :
  (forall a, Q (Done a) (record (mk (Returns a)) s)) ->
  (forall e, Q (Raised e) (record (mk (Raises e)) s)) ->
  Q Blocked (record (mk Diverges) s) ->
  Q (fst (reply_to mk r s)) (snd (reply_to mk r s)).
Proof. intros H1 H2 H3. destruct r; simpl; auto. Qed.

Lemma wp_callU c (Q : Outcome unit -> State -> Prop) :
  Q (Done tt) (record (EvU c (Returns tt)) s) ->
  (forall e, Q (Raised e) (record (EvU c (Raises e)) s)) ->
  Q Blocked (record (EvU c Diverges) s) ->
  wp (callU c) w s Q.
Proof. intros H1 H2 H3. unfold wp, callU. apply wp_reply; auto. intros []. exact H1. Qed.

Lemma wp_callB c (Q : Outcome bool -> State -> Prop) :
  Q (Done true) (record (EvB c (Returns true)) s) ->
  Q (Done false) (record (EvB c (Returns false)) s) ->
  (forall e, Q (Raised e) (record (EvB c (Raises e)) s)) ->
  Q Blocked (record (EvB c Diverges) s) ->
  wp (callB c) w s Q.
Proof. intros H1 H2 H3 H4. unfold wp, callB. apply wp_reply; auto. intros []; assumption. Qed.

Lemma wp_callI c (Q : Outcome Z -> State -> Prop) :
  (forall g, Q (Done g) (record (EvI c (Returns g)) s)) ->
  (forall e, Q (Raised e) (record (EvI c (Raises e)) s)) ->
  Q Blocked (record (EvI c Diverges) s) ->
  wp (callI c) w s Q.
Proof. intros. unfold wp, callI. apply wp_reply; auto. Qed.

Lemma wp_callV c (Q : Outcome (list TfVariable) -> State -> Prop) :
  (forall gv, Q (Done gv) (record (EvV c (Returns gv)) s)) ->
  (forall e, Q (Raised e) (record (EvV c (Raises e)) s)) ->
  Q Blocked (record (EvV c Diverges) s) ->
  wp (callV c) w s Q.
Proof. intros. unfold wp, callV. apply wp_reply; auto. Qed.

Lemma wp_log lvl msg (Q : Outcome unit -> State -> Prop) :
  Q (Done tt) (record (EvLog lvl msg) s) -> wp (log lvl msg) w s Q.
Proof. exact (fun H => H). Qed.

Lemma wp_assign v (Q : Outcome unit -> State -> Prop) :
  Q (Done tt) {| history := history s; var_global_step := Some v |} ->
  wp (assign_global_step v) w s Q.
Proof. exact (fun H => H). Qed.

Lemma wp_read (Q : Outcome Z -> State -> Prop) :
  match var_global_step s with
  | Some v => Q (Done v) s
  | None => Q (Raised (UnboundLocalError "global_step")) s
  end ->
  wp read_global_step w s Q.
Proof. unfold wp, read_global_step. destruct (var_global_step s); auto. Qed.

Lemma wp_getitem d key (Q : Outcome PyVal -> State -> Prop) :
  match d !! key with
  | Some v => Q (Done v) s
  | None => Q (Raised (KeyError key)) s
  end ->
  wp (getitem d key) w s Q.
Proof. unfold wp, getitem. destruct (d !! key); auto. Qed.

Lemma wp_with enter exit_ body (Q : Outcome unit -> State -> Prop) :
  wp (callU enter) w s (entering body exit_ w Q) ->
  wp (with_ enter exit_ body) w s Q.
Proof.
  unfold with_. intros H. apply wp_bind.
  eapply wp_consequence; [exact H|].
  intros [[]|e| |] s'; simpl; auto.
  unfold wp, leaving. destruct (body w s') as [[[]|e| |] s'']; simpl; auto.
Qed.
End WpCalls.

(** ** Symbolic execution *)

Ltac wp_norm :=
  cbv beta iota zeta delta [after handled leaving entering];
  cbn [var_global_step history record negb].

Ltac wp_step :=
  wp_norm;
  lazymatch goal with
  | |- wp (bind _ _) _ _ _ => apply wp_bind
  | |- wp (ret _) _ _ _ => apply wp_ret
  | |- wp (raise _) _ _ _ => apply wp_raise
  | |- wp out_of_fuel _ _ _ => apply wp_out_of_fuel
  | |- wp (callU _) _ _ _ => apply wp_callU; [ | intros ? | ]
  | |- wp (callB _) _ _ _ => apply wp_callB; [ | | intros ? | ]
  | |- wp (callI _) _ _ _ => apply wp_callI; [ intros ? | intros ? | ]
  | |- wp (callV _) _ _ _ => apply wp_callV; [ intros ? | intros ? | ]
  | |- wp (log _ _) _ _ _ => apply wp_log
  | |- wp (assign_global_step _) _ _ _ => apply wp_assign
  | |- wp read_global_step _ _ _ => apply wp_read
  | |- wp (getitem _ _) _ _ _ => apply wp_getitem
  | |- wp (try_except _ _) _ _ _ => apply wp_try_except
  | |- wp (with_ _ _ _) _ _ _ => apply wp_with
  | |- wp (if negb ?b then _ else _) _ _ _ => destruct b eqn:?; cbn [negb]
  | |- wp (if ?b then _ else _) _ _ _ => destruct b eqn:?
  | |- match ?x with Some _ => _ | None => _ end => destruct x eqn:?
  end.

Ltac wp_run := repeat wp_step; wp_norm.

Ltac hist_cbn :=
  cbn [Inv fin always ok ok_process ok_close ok_fill ok_supervisor ok_env ok_log
       ok_server server_args_ok
       expects pending settled env_raised terminal completed session_left
       ended_by_join ps_events ps_event server_joined forallb
       before_fill before_is_full holds
       loop_entered loop_left last_read last_vars
       all_returned absent returned is_process is_close is_sv_stop is_fill
       is_is_full is_env_make is_server is_step_read is_save is_session_enter
       is_trainer_use negb andb orb history var_global_step record] in *.

Ltac use_facts :=
  repeat match goal with
  | H : last_read ?h = _ |- context [last_read ?h] => rewrite H
  | H : last_vars ?h = _ |- context [last_vars ?h] => rewrite H
  | H : all_returned ?h = _ |- context [all_returned ?h] => rewrite H
  | H : absent ?p ?h = _ |- context [absent ?p ?h] => rewrite H
  | H : test_mode ?x = _ |- context [test_mode ?x] => rewrite H
  | H : str_in ?x ?y = _ |- context [str_in ?x ?y] => rewrite H
  | H : (_ <? _)%Z = true |- _ => apply Z.ltb_lt in H
  | H : (_ <? _)%Z = false |- _ => apply Z.ltb_ge in H
  end.

Lemma settled_expects h e : settled h = true -> expects h e.
Proof.
  destruct h as [|[c [[]|x|]|c [[]|x|]|c r|c r|lvl msg] h]; simpl; auto;
    destruct c; simpl; auto; discriminate.
Qed.

Lemma settled_pending h : settled h = true -> pending h = false.
Proof.
  unfold settled. destruct (pending h); simpl; auto.
Qed.

Lemma settled_env_raised h : settled h = true -> env_raised h = false.
Proof.
  destruct h as [|[c [[]|x|]|c r|c r|c r|lvl msg] h]; simpl; auto;
    destruct c; simpl; auto; discriminate.
Qed.

Lemma settled_ended_by_join o h : settled h = true -> ended_by_join o h.
Proof.
  destruct h as [|[c [[]|x|]|c r|c r|c r|lvl msg] h]; simpl; auto;
    destruct c; simpl; auto; discriminate.
Qed.

Lemma loop_left_expects_close self h r :
  loop_left self h -> expects h (EvU env_close r).
Proof.
  destruct h as [|[c r'|[] [[]|x|]|c r'|c r'|lvl msg] h]; simpl; auto;
    contradiction.
Qed.

Ltac close_leaf :=
  first
  [ exact I
  | assumption
  | reflexivity
  | apply settled_expects; assumption
  | eapply loop_left_expects_close; eassumption
  | apply settled_pending; assumption
  | apply settled_env_raised; assumption
  | apply settled_ended_by_join; assumption
  | left; reflexivity
  | right; reflexivity
  | lia
  | intros; congruence
  | eexists; split; reflexivity
  | intros _; unfold msg_env_failed; use_facts; reflexivity
  | let H := fresh in
    intros H; rewrite settled_env_raised in H by assumption; discriminate H ].

Ltac leaf :=
  repeat (progress (hist_cbn; use_facts));
  repeat split; close_leaf.

(** ** The loop, the [for] statement and the whole of [run] *)

Lemma training_loop_post self fuel w : forall s,
  LoopInv self s -> wp (training_loop self fuel) w s (LoopPost self).
Proof.
  induction fuel as [|fuel IH];
    intros [h v] (Hok & Hset & (g & Hv & Hr) & Hret & Hcl); cbn in Hv; subst v;
    cbn [history] in *.
  - cbn [training_loop]. wp_step. unfold LoopPost. leaf.
  - cbn [training_loop]. wp_run.
    all: try (apply IH; unfold LoopInv); try unfold LoopPost.
    all: leaf.
Qed.

Lemma for_each_log_calm {A} self gv (f : A -> string) w (l : list A) : forall s,
  Calm self gv s ->
  wp (for_each l (fun v => log DEBUG (f v))) w s
     (fun o s' => o = Done tt /\ Calm self gv s').
Proof.
  induction l as [|x l IH];
    intros [h v] (Hok & Hset & Hv & Hr & Hgv & Hret & H1 & H2 & H3 & H4);
    cbn [history var_global_step] in *; subst v; cbn [for_each].
  - wp_step. unfold Calm. leaf.
  - wp_run. apply IH. unfold Calm. leaf.
Qed.

(** Every run of [run], in every world and for every loop bound, ends in a
    state whose history passes the monitors. *)
Lemma run_inv self fuel w : wp (run self fuel) w initial_state (Inv self).
Proof.
  unfold run, run_worker, make_environment, session_body, initial_state.
  wp_run.
  all: lazymatch goal with
       | |- wp (for_each (variables_to_save ?gv) _) _ _ _ =>
           eapply wp_consequence;
           [ apply (for_each_log_calm self gv); unfold Calm; leaf
           | intros ? [h v]
               (-> & Hok & Hset & Hv & Hr & Hgv & Hret & H1 & H2 & H3 & H4);
             cbn [history var_global_step] in *; subst v; wp_run ]
       | |- _ => idtac
       end.
  all: lazymatch goal with
       | |- wp (training_loop _ _) _ _ _ =>
           eapply wp_consequence;
           [ apply training_loop_post; unfold LoopInv; leaf
           | intros [[]|x| |] [h' v'] (Hok' & Hv' & Hpost);
             cbn [history var_global_step] in *; subst v';
             try destruct Hpost as (Hleft & Hret' & Hcl');
             wp_run ]
       | |- _ => idtac
       end.
  all: leaf.
Qed.

(** ** Lists of events *)

Lemma always_split ok h later e earlier :
  always ok h -> h = later ++ e :: earlier -> ok e earlier.
Proof.
  intros H ->. induction later as [|x later IH]; simpl in H; [tauto|].
  apply IH. tauto.
Qed.

Lemma always_suffix ok later earlier :
  always ok (later ++ earlier) -> always ok earlier.
Proof.
  induction later as [|x later IH]; simpl; [auto|]. intros [_ H]. auto.
Qed.

(** The event that follows the events of [earlier], if there is one. *)
Lemma next_event ok later earlier :
  always ok (later ++ earlier) ->
  later = [] \/ exists later' e, later = later' ++ [e] /\ ok e earlier.
Proof.
  intros H. destruct later as [|x later] using rev_ind; [left; reflexivity|].
  right. exists later, x. split; [reflexivity|].
  rewrite <- app_assoc in H. simpl in H.
  eapply always_split; [exact H|reflexivity].
Qed.

Lemma absent_app p l1 l2 :
  absent p (l1 ++ l2) = absent p l1 && absent p l2.
Proof.
  induction l1 as [|x l1 IH]; simpl; [reflexivity|].
  rewrite IH. destruct (p x); reflexivity.
Qed.

Lemma occurrences_app p l1 l2 :
  occurrences p (l1 ++ l2) = (occurrences p l1 + occurrences p l2)%nat.
Proof.
  unfold occurrences. rewrite List.filter_app, List.length_app. reflexivity.
Qed.

Lemma occurrences_absent p h : absent p h = true -> occurrences p h = 0%nat.
Proof.
  unfold occurrences. induction h as [|x h IH]; simpl; [reflexivity|].
  destruct (p x); simpl; [discriminate|auto].
Qed.

Lemma absent_weaken (p q : Event -> bool) h :
  (forall e, q e = true -> p e = true) -> absent p h = true -> absent q h = true.
Proof.
  intros Hpq. induction h as [|x h IH]; simpl; [reflexivity|].
  intros H. apply andb_prop in H as [H1 H2]. rewrite IH by assumption.
  destruct (q x) eqn:E; [|reflexivity].
  rewrite (Hpq x E) in H1. discriminate.
Qed.

Section Once.
Variables (ok : Event -> History -> Prop) (p : Event -> bool).
Hypothesis fresh : forall e earlier,
    p e = true -> ok e earlier -> absent p earlier = true.

Lemma absent_later later e earlier :
  always ok (later ++ e :: earlier) -> p e = true -> absent p later = true.
Proof.
  intros H He. induction later as [|x later IH]; simpl in *; [reflexivity|].
  destruct H as [Hx H]. rewrite (IH H), andb_true_r.
  destruct (p x) eqn:E; [|reflexivity].
  apply (fresh _ _ E) in Hx. rewrite absent_app in Hx. simpl in Hx.
  rewrite He in Hx. simpl in Hx. rewrite andb_false_r in Hx. discriminate.
Qed.

Lemma exactly_once later e earlier :
  always ok (later ++ e :: earlier) -> p e = true ->
  occurrences p (later ++ e :: earlier) = 1%nat.
Proof.
  intros H He. rewrite occurrences_app.
  rewrite (occurrences_absent _ _ (absent_later _ _ _ H He)).
  assert (Hok : ok e earlier) by (eapply always_split; [exact H|reflexivity]).
  change (e :: earlier) with ([e] ++ earlier). rewrite occurrences_app.
  rewrite (occurrences_absent _ _ (fresh _ _ He Hok)).
  unfold occurrences. simpl. rewrite He. reflexivity.
Qed.

Lemma at_most_once h : always ok h -> (occurrences p h <= 1)%nat.
Proof.
  induction h as [|x h IH]; simpl; intros H; [unfold occurrences; simpl; lia|].
  destruct H as [Hx H]. destruct (p x) eqn:E.
  - pose proof (exactly_once [] x h) as H1. simpl in H1.
    rewrite H1; auto.
  - unfold occurrences in *. simpl. rewrite E. auto.
Qed.
End Once.

(** Events of kind [q] come right after a [good] event of kind [p]. *)
Section Dependent.
Variables (ok : Event -> History -> Prop) (p q good : Event -> bool).
Hypothesis follows : forall e earlier,
    q e = true -> ok e earlier ->
    match earlier with
    | x :: _ => p x = true /\ good x = true
    | [] => False
    end.

Lemma absent_dependent earlier :
  always ok earlier -> absent p earlier = true -> absent q earlier = true.
Proof.
  induction earlier as [|x h IH]; simpl; [reflexivity|].
  intros [Hx H] Hp. apply andb_prop in Hp as [Hp1 Hp2].
  rewrite (IH H Hp2), andb_true_r.
  destruct (q x) eqn:E; [|reflexivity].
  apply (follows _ _ E) in Hx. destruct h as [|y h]; [contradiction|].
  simpl in Hp2. destruct Hx as [Hy _]. rewrite Hy in Hp2. discriminate.
Qed.

Lemma absent_dependent_later later x earlier :
  always ok (later ++ x :: earlier) -> good x = false ->
  absent p later = true -> absent q later = true.
Proof.
  intros H Hx. induction later as [|y later IH]; simpl in *; [reflexivity|].
  destruct H as [Hy H]. intros Hp. apply andb_prop in Hp as [Hp1 Hp2].
  rewrite (IH H Hp2), andb_true_r.
  destruct (q y) eqn:E; [|reflexivity].
  apply (follows _ _ E) in Hy. destruct later as [|z later]; simpl in Hy.
  - destruct Hy as [_ Hg]. congruence.
  - simpl in Hp2. destruct Hy as [Hz _]. rewrite Hz in Hp2. discriminate.
Qed.
End Dependent.

Lemma run_always self fuel w :
  always (ok self) (history (snd (run self fuel w initial_state))).
Proof. exact (proj1 (run_inv self fuel w)). Qed.

Lemma run_fin self fuel w :
  fin self (fst (run self fuel w initial_state))
    (snd (run self fuel w initial_state)).
Proof. exact (proj2 (run_inv self fuel w)). Qed.

(** ** The claims *)

(** C10: whatever [write_meta_graph] the caller passes, [FastSaver.save]
    makes exactly one call of [tf.train.Saver.save], with
    [write_meta_graph] false and the other four arguments unchanged. *)
Theorem C10_save_never_writes_meta_graph (a : SaveArgs) (w : World) (s : State) :
  exists forwarded r,
    history (snd (FastSaver_save a w s))
      = EvU (Saver_save forwarded) r :: history s
    /\ write_meta_graph forwarded = false
    /\ save_path forwarded = save_path a
    /\ save_global_step forwarded = save_global_step a
    /\ latest_filename forwarded = latest_filename a
    /\ meta_graph_suffix forwarded = meta_graph_suffix a.
Proof.
  unfold FastSaver_save, callU.
  destruct (w_unit w _ _) as [[]|x|]; simpl;
    do 2 eexists; (split; [reflexivity|]); simpl; repeat split.
Qed.

Lemma ps_events_absent (p : Event -> bool) h :
  (forall e, ps_event e = true -> p e = false) ->
  ps_events h = true -> absent p h = true.
Proof.
  intros Hp. unfold ps_events. induction h as [|x h IH]; simpl; [reflexivity|].
  intros H. apply andb_prop in H as [H1 H2].
  rewrite (Hp x H1), (IH H2). reflexivity.
Qed.

Lemma ps_run_joins self fuel w :
  str_in (job_name self) "ps" = true ->
  wp (run self fuel) w initial_state joins.
Proof.
  intros Hrole. unfold run, initial_state. rewrite Hrole. wp_run.
  all: unfold joins; cbn [history record]; intros later j t c earlier Hsplit.
  all: repeat (destruct later as [|? later];
               [ try discriminate Hsplit
               | injection Hsplit as <- Hsplit ]);
       try discriminate Hsplit.
  all: try (destruct later; discriminate Hsplit).
  all: eexists; reflexivity.
Qed.

(** C3: a [process()] call comes only right after the loop condition was
    tested and found true: the stop flag was read unset and the global step
    last read from the session is strictly below [max_train_steps].  And a
    loop entered when the global step is already at the bound tests the
    stop flag and makes no other call. *)
Theorem C3_process_only_under_loop_condition self fuel w :
  (forall later r earlier,
      history (snd (run self fuel w initial_state))
        = later ++ EvU trainer_process r :: earlier ->
      exists rest g,
        earlier = EvB sv_should_stop (Returns false) :: rest
        /\ last_read rest = Some g /\ (g < max_train_steps self)%Z)
  /\ (forall s g,
        var_global_step s = Some g -> (max_train_steps self <= g)%Z ->
        exists r,
          history (snd (training_loop self (S fuel) w s))
            = EvB sv_should_stop r :: history s).
Proof.
  split.
  - intros later r earlier Hsplit.
    pose proof (always_split _ _ _ _ _ (run_always self fuel w) Hsplit)
      as (Hproc & _).
    cbn [ok_process] in Hproc. unfold loop_entered in Hproc.
    destruct earlier as [|[| c [[]|x|] | | |] rest]; try contradiction;
      destruct c; try contradiction.
    unfold holds in Hproc. destruct (last_read rest) as [g|] eqn:Hread; [|contradiction].
    exists rest, g. auto.
  - intros [h v] g Hv Hmax. cbn in Hv. subst v.
    cbn [training_loop]. unfold bind, callB, read_global_step, ret.
    cbn [history var_global_step].
    destruct (w_bool w (length h) sv_should_stop) as [[]|x|]; cbn;
      try (eexists; reflexivity).
    apply Z.ltb_ge in Hmax. rewrite Hmax. cbn. eexists; reflexivity.
Qed.

Lemma C3_witness :
  (exists rest g,
      skipn 11 demo_history = EvB sv_should_stop (Returns false) :: rest
      /\ last_read rest = Some g
      /\ (g < max_train_steps (demo_worker "worker"))%Z)
  /\ (exists r,
        history (snd (training_loop (demo_worker "worker") 6 calm_world
                        {| history := []; var_global_step := Some 12%Z |}))
          = EvB sv_should_stop r :: []).
Proof.
  destruct (C3_process_only_under_loop_condition
              (demo_worker "worker") 20 calm_world) as [A _].
  destruct (C3_process_only_under_loop_condition
              (demo_worker "worker") 5 calm_world) as [_ B].
  split.
  - apply (A (firstn 10 demo_history) (Returns tt) (skipn 11 demo_history)).
    vm_compute. reflexivity.
  - apply (B {| history := []; var_global_step := Some 12%Z |} 12%Z).
    + reflexivity.
    + vm_compute. discriminate.
Defined.

(** C8: at the end of every run the local variable [global_step] holds the
    value last read from [trainer.global_step] through the session; every
    [process()] call that returns is followed at once by such a read; and
    each warning line is written with the value last read: the line logged
    after the session is the "reached ... steps" line, and a worker run
    that returns ends with it. *)
Theorem C8_global_step_is_read_back self fuel w :
  let o := fst (run self fuel w initial_state) in
  let s := snd (run self fuel w initial_state) in
  var_global_step s = last_read (history s)
  /\ (forall later earlier,
        history s = later ++ EvU trainer_process (Returns tt) :: earlier ->
        exists later' r,
          later = later' ++ [EvI (sess_run_value trainer_global_step) r])
  /\ (forall later msg earlier,
        history s = later ++ EvLog WARNING msg :: earlier ->
        exists g,
          last_read earlier = Some g
          /\ msg = if session_left earlier
                   then msg_reached self g else msg_started self g)
  /\ (o = Done tt -> str_in (job_name self) "ps" = false ->
      exists g x b rest,
        history s = EvLog WARNING (msg_reached self g)
                    :: EvB (managed_session_exit x) (Returns b) :: rest
        /\ last_read rest = Some g).
Proof.
  intros o s. pose proof (run_always self fuel w) as Hok.
  pose proof (run_fin self fuel w) as (Hvar & Hpend & _ & Hdone & _).
  fold s in Hok, Hvar, Hpend, Hdone. fold o in Hdone.
  split; [exact Hvar|]. split; [|split].
  - intros later earlier Hsplit. rewrite Hsplit in Hok, Hpend.
    destruct (next_event _ _ _ Hok) as [-> | (later' & e & -> & He)];
      [discriminate Hpend|].
    exists later'. destruct He as (_ & _ & _ & _ & _ & _ & _ & Hexp).
    cbn [expects] in Hexp.
    destruct e as [|? ?|[[]] r| |]; try discriminate Hexp.
    exists r. reflexivity.
  - intros later msg earlier Hsplit.
    pose proof (always_split _ _ _ _ _ Hok Hsplit)
      as (_ & _ & _ & _ & _ & _ & Hlog & _).
    cbn [ok_log] in Hlog. unfold holds in Hlog.
    destruct (last_read earlier) as [g|] eqn:Hread; [|contradiction].
    exists g. auto.
  - intros Ho Hrole. specialize (Hdone Ho Hrole). unfold completed in Hdone.
    destruct (history s) as [|[| | | |[] msg] [|[|[] [b|?|]| | |] rest]] eqn:Hh;
      try discriminate Hdone.
    destruct Hok as [(_ & _ & _ & _ & _ & _ & Hlog & _) _].
    cbn [ok_log session_left] in Hlog. unfold holds in Hlog.
    cbn [last_read] in Hlog.
    destruct (last_read rest) as [g|] eqn:Hread; [|contradiction]. subst msg.
    exists g, exc, b, rest. auto.
Qed.

Lemma C8_witness :
  let self := demo_worker "worker" in
  let o := fst (run self 20 calm_world initial_state) in
  let s := snd (run self 20 calm_world initial_state) in
  var_global_step s = last_read (history s)
  /\ (forall later earlier,
        history s = later ++ EvU trainer_process (Returns tt) :: earlier ->
        exists later' r,
          later = later' ++ [EvI (sess_run_value trainer_global_step) r])
  /\ (forall later msg earlier,
        history s = later ++ EvLog WARNING msg :: earlier ->
        exists g,
          last_read earlier = Some g
          /\ msg = if session_left earlier
                   then msg_reached self g else msg_started self g)
  /\ (exists g x b rest,
        history s = EvLog WARNING (msg_reached self g)
                    :: EvB (managed_session_exit x) (Returns b) :: rest
        /\ last_read rest = Some g).
Proof.
  intros self o s.
  destruct (C8_global_step_is_read_back self 20 calm_world)
    as (A & B & C & D).
  split; [exact A|]. split; [exact B|]. split; [exact C|].
  apply D; vm_compute; reflexivity.
Defined.

Example C8_demo_log :
  hd_error demo_history
    = Some (EvLog WARNING "worker_0: reached 12 steps, exiting.")
  /\ last_read demo_history = Some 12%Z.
Proof. vm_compute. split; reflexivity. Qed.

Lemma fill_fresh self e earlier :
  is_fill e = true -> ok self e earlier -> absent is_fill earlier = true.
Proof.
  destruct e as [[]| | | |]; try discriminate. intros _ H. apply H.
Qed.

Lemma is_full_fresh self e earlier :
  is_is_full e = true -> ok self e earlier -> absent is_is_full earlier = true.
Proof.
  destruct e as [|[]| | |]; try discriminate. intros _ H. apply H.
Qed.

Lemma close_fresh self e earlier :
  is_close e = true -> ok self e earlier -> absent is_close earlier = true.
Proof.
  destruct e as [[]| | | |]; try discriminate. intros _ H. apply H.
Qed.

Lemma env_fresh self e earlier :
  is_env_make e = true -> ok self e earlier -> absent is_env_make earlier = true.
Proof.
  destruct e as [[]| | | |]; try discriminate. intros _ H. apply H.
Qed.

Lemma fill_follows_not_full self e earlier :
  is_fill e = true -> ok self e earlier ->
  match earlier with
  | x :: _ => is_is_full x = true /\ not_full x = true
  | [] => False
  end.
Proof.
  destruct e as [[]| | | |]; try discriminate. intros _ (_ & _ & (H & _) & _).
  unfold before_fill in H.
  destruct earlier as [|[|[] [[]|?|]| | |] rest]; try contradiction.
  split; reflexivity.
Qed.

Lemma sv_stop_follows_closed self e earlier :
  is_sv_stop e = true -> ok self e earlier ->
  match earlier with
  | x :: _ => is_close x = true /\ closed x = true
  | [] => False
  end.
Proof.
  destruct e as [[]| | | |]; try discriminate. intros _ (_ & H & _).
  cbn [ok_close] in H.
  destruct earlier as [|[[] [|?|]| | | |] rest]; try contradiction.
  split; reflexivity.
Qed.

(** C4: when [trainer.memory.is_full()] returns false, the next call is
    [trainer.memory.fill()]; it comes after [sync], [start] and the first
    read of the global step, before any [process()] call, and it is the
    only [fill()] call of the run.  When [is_full()] returns true, the run
    has no [fill()] call. *)
Theorem C4_memory_filled_once_before_training self fuel w :
  let h := history (snd (run self fuel w initial_state)) in
  (forall later earlier,
      h = later ++ EvB memory_is_full (Returns false) :: earlier ->
      occurrences is_fill h = 1%nat
      /\ (exists later' r, later = later' ++ [EvU memory_fill r])
      /\ (exists g0 rest,
            earlier = EvB hasattr_trainer_memory (Returns true)
                      :: EvI (sess_run_value trainer_global_step) (Returns g0)
                      :: EvU trainer_start (Returns tt)
                      :: EvU (sess_run trainer_sync) (Returns tt) :: rest)
      /\ absent is_process earlier = true)
  /\ (forall later earlier,
        h = later ++ EvB memory_is_full (Returns true) :: earlier ->
        occurrences is_fill h = 0%nat).
Proof.
  intros h. pose proof (run_always self fuel w) as Hok.
  pose proof (run_fin self fuel w) as (_ & Hpend & _).
  fold h in Hok, Hpend. split.
  - intros later earlier Hsplit. rewrite Hsplit in Hok, Hpend.
    destruct (next_event _ _ _ Hok) as [-> | (later' & e & -> & He)];
      [discriminate Hpend|].
    pose proof He as (_ & _ & Hfill & _ & _ & _ & _ & Hexp).
    cbn [expects] in Hexp. destruct e as [[] r| | | |]; try discriminate Hexp.
    rewrite <- app_assoc in Hok, Hsplit. cbn [app] in Hok, Hsplit.
    destruct Hfill as (Hbefore & Hproc & _).
    cbn [before_fill] in Hbefore. cbn [absent is_process negb andb] in Hproc.
    repeat match type of Hbefore with
           | match ?x with _ => _ end => destruct x; try contradiction
           end.
    repeat match goal with u : unit |- _ => destruct u end.
    split; [|split; [|split]].
    + rewrite Hsplit. apply (exactly_once (ok self) is_fill (fill_fresh self));
        [exact Hok|reflexivity].
    + exists later', r. reflexivity.
    + eexists; eexists; reflexivity.
    + exact Hproc.
  - intros later earlier Hsplit. rewrite Hsplit in Hok. rewrite Hsplit.
    apply occurrences_absent. rewrite absent_app. cbn [absent is_fill negb andb].
    pose proof (always_split _ _ _ _ _ Hok eq_refl) as (_ & _ & Hfull & _).
    destruct Hfull as (_ & _ & ->). rewrite andb_true_r.
    apply (absent_dependent_later (ok self) is_is_full is_fill not_full
             (fill_follows_not_full self) later _ earlier Hok eq_refl).
    apply (absent_later (ok self) is_is_full (is_full_fresh self) later _ earlier
             Hok eq_refl).
Qed.

Lemma C4_witness :
  occurrences is_fill demo_history = 1%nat
  /\ (exists later' r, firstn 14 demo_history = later' ++ [EvU memory_fill r])
  /\ (exists g0 rest,
        skipn 15 demo_history
          = EvB hasattr_trainer_memory (Returns true)
            :: EvI (sess_run_value trainer_global_step) (Returns g0)
            :: EvU trainer_start (Returns tt)
            :: EvU (sess_run trainer_sync) (Returns tt) :: rest)
  /\ absent is_process (skipn 15 demo_history) = true.
Proof.
  destruct (C4_memory_filled_once_before_training
              (demo_worker "worker") 20 calm_world) as [A _].
  apply (A (firstn 14 demo_history) (skipn 15 demo_history)).
  vm_compute. reflexivity.
Defined.

Lemma variables_to_save_spec gv v :
  In v (variables_to_save gv)
  <-> In v gv /\ startswith (name v) "local" = false.
Proof.
  unfold variables_to_save. rewrite List.filter_In.
  destruct (startswith (name v) "local"); simpl; intuition congruence.
Qed.

Lemma supervisor_event self fuel w later args r earlier :
  history (snd (run self fuel w initial_state))
    = later ++ EvU (tf_train_Supervisor args) r :: earlier ->
  exists gv, last_vars earlier = Some gv /\ args = supervisor_args self gv.
Proof.
  intros Hsplit.
  pose proof (always_split _ _ _ _ _ (run_always self fuel w) Hsplit)
    as (_ & _ & _ & Hsup & _).
  cbn [ok_supervisor] in Hsup. unfold holds in Hsup.
  destruct (last_vars earlier) as [gv|] eqn:Hgv; [|contradiction].
  exists gv. auto.
Qed.

(** C5: the list saved by the saver, the list of the initializer [init_op]
    and the list of the readiness check [ready_op] given to the supervisor
    are all the same list: the variables returned by
    [tf.global_variables()] whose name does not start with ["local"], and
    no others.  The callback [init_fn] given to the supervisor runs the
    initializer of all variables. *)
Theorem C5_partition_by_local_prefix self fuel w later args r earlier :
  history (snd (run self fuel w initial_state))
    = later ++ EvU (tf_train_Supervisor args) r :: earlier ->
  exists gv,
    last_vars earlier = Some gv
    /\ saver_var_list (saver args) = variables_to_save gv
    /\ init_op args = variables_initializer (variables_to_save gv)
    /\ ready_op args = report_uninitialized_variables (variables_to_save gv)
    /\ (forall v, In v (variables_to_save gv)
                  <-> In v gv /\ startswith (name v) "local" = false)
    /\ init_fn args = init_fn_closure global_variables_initializer
    /\ (forall w' s', exists r',
          history (snd (init_fn_body (init_fn args) w' s'))
            = EvU (sess_run global_variables_initializer) r'
              :: EvLog DEBUG "Initializing all parameters." :: history s').
Proof.
  intros Hsplit.
  destruct (supervisor_event _ _ _ _ _ _ _ Hsplit) as (gv & Hgv & ->).
  exists gv. cbn [supervisor_args saver saver_var_list init_op ready_op init_fn].
  do 4 (split; [reflexivity || assumption|]).
  split; [intros v; apply variables_to_save_spec|].
  split; [reflexivity|].
  intros w' s'. unfold init_fn_body, bind, log, callU. cbn.
  destruct (w_unit w' _ _) as [[]|x|]; cbn; eexists; reflexivity.
Qed.

Lemma C5_witness :
  exists gv,
    last_vars (skipn 23 demo_history) = Some gv
    /\ saver_var_list (saver (supervisor_args (demo_worker "worker") demo_variables))
       = variables_to_save gv
    /\ init_op (supervisor_args (demo_worker "worker") demo_variables)
       = variables_initializer (variables_to_save gv)
    /\ ready_op (supervisor_args (demo_worker "worker") demo_variables)
       = report_uninitialized_variables (variables_to_save gv)
    /\ (forall v, In v (variables_to_save gv)
                  <-> In v gv /\ startswith (name v) "local" = false)
    /\ init_fn (supervisor_args (demo_worker "worker") demo_variables)
       = init_fn_closure global_variables_initializer
    /\ (forall w' s', exists r',
          history (snd (init_fn_body
                          (init_fn (supervisor_args (demo_worker "worker")
                                      demo_variables)) w' s'))
            = EvU (sess_run global_variables_initializer) r'
              :: EvLog DEBUG "Initializing all parameters." :: history s').
Proof.
  apply (C5_partition_by_local_prefix (demo_worker "worker") 20 calm_world
           (firstn 22 demo_history)
           (supervisor_args (demo_worker "worker") demo_variables)
           (Returns tt) (skipn 23 demo_history)).
  vm_compute. reflexivity.
Defined.

Example C5_demo_partition :
  variables_to_save demo_variables
    = [ {| name := "global/W"; get_shape := "(3, 4)" |} ].
Proof. reflexivity. Qed.

(** C9: the saver given to the supervisor holds exactly the variables
    whose name does not start with ["local"]; the supervisor is told to save
    every 300 seconds, whatever the bound and the length of the training
    loop; and no run calls the saver's [save] itself. *)
Theorem C9_checkpoints_left_to_the_supervisor self fuel w :
  let h := history (snd (run self fuel w initial_state)) in
  absent is_save h = true
  /\ (forall later args r earlier,
        h = later ++ EvU (tf_train_Supervisor args) r :: earlier ->
        save_model_secs args = 300%Z
        /\ exists gv,
             last_vars earlier = Some gv
             /\ saver_var_list (saver args) = variables_to_save gv
             /\ (forall v, In v (saver_var_list (saver args))
                           <-> In v gv /\ startswith (name v) "local" = false)).
Proof.
  intros h. split.
  - pose proof (run_always self fuel w) as Hok. fold h in Hok.
    induction h as [|e h IH]; [reflexivity|].
    destruct Hok as [(_ & _ & _ & Hsup & _) Hok].
    cbn [absent]. rewrite (IH Hok), andb_true_r.
    destruct e as [[]| | | |]; try reflexivity. contradiction Hsup.
  - intros later args r earlier Hsplit.
    destruct (supervisor_event _ _ _ _ _ _ _ Hsplit) as (gv & Hgv & ->).
    split; [reflexivity|]. exists gv.
    cbn [supervisor_args saver saver_var_list].
    split; [assumption|]. split; [reflexivity|].
    intros v; apply variables_to_save_spec.
Qed.

Lemma C9_witness :
  save_model_secs (supervisor_args (demo_worker "worker") demo_variables) = 300%Z
  /\ exists gv,
       last_vars (skipn 23 demo_history) = Some gv
       /\ saver_var_list
            (saver (supervisor_args (demo_worker "worker") demo_variables))
          = variables_to_save gv
       /\ (forall v,
             In v (saver_var_list
                     (saver (supervisor_args (demo_worker "worker")
                               demo_variables)))
             <-> In v gv /\ startswith (name v) "local" = false).
Proof.
  destruct (C9_checkpoints_left_to_the_supervisor
              (demo_worker "worker") 20 calm_world) as [_ A].
  apply (A (firstn 22 demo_history) _ (Returns tt) (skipn 23 demo_history)).
  vm_compute. reflexivity.
Defined.

(** C7: when the environment class raises, in either mode, that call is the
    last event of the run: it is not repeated and no session is entered.
    The run ends with [SystemExit] carrying a message that names the rank,
    so the process exits with status 1; before the failed call the
    environment class was not called, the trainer was not built or used,
    and no session was entered. *)
Theorem C7_environment_failure_is_fatal self fuel w later cls args x earlier :
  history (snd (run self fuel w initial_state))
    = later ++ EvU (env_class_call cls args) (Raises x) :: earlier ->
  later = []
  /\ fst (run self fuel w initial_state)
     = Raised (SystemExit
                 (" Worker_" +:+ str_int (task self) +:+
                  (if test_mode self
                   then " failed to make Atari Gym environment"
                   else " failed to make BTgym environment")))
  /\ exitcode (fst (run self fuel w initial_state)) = Some 1%Z
  /\ occurrences is_env_make (history (snd (run self fuel w initial_state)))
     = 1%nat
  /\ absent is_session_enter (history (snd (run self fuel w initial_state)))
     = true
  /\ absent is_trainer_use (history (snd (run self fuel w initial_state)))
     = true.
Proof.
  intros Hsplit. pose proof (run_always self fuel w) as Hok.
  pose proof (run_fin self fuel w) as (_ & _ & Henv & _).
  rewrite Hsplit in Hok.
  assert (Hlater : later = []).
  { destruct (next_event _ _ _ Hok) as [E | (l & e & _ & He)]; [exact E|].
    destruct He as (_ & _ & _ & _ & _ & _ & _ & Hexp). contradiction Hexp. }
  subst later. cbn [app] in *. rewrite Hsplit in Henv |- *.
  specialize (Henv eq_refl). rewrite Henv.
  destruct Hok as [(_ & _ & _ & _ & _ & (_ & Htr & Hse) & _) Hok].
  split; [reflexivity|]. split.
  { unfold msg_env_failed, msg_atari_failed, msg_btgym_failed.
    destruct (test_mode self); reflexivity. }
  split; [reflexivity|]. split.
  { apply (exactly_once (ok self) is_env_make (env_fresh self) []);
      [|reflexivity].
    cbn [app always]. split; [|exact Hok].
    pose proof (run_always self fuel w) as Hok'. rewrite Hsplit in Hok'.
    apply Hok'. }
  cbn [absent is_session_enter is_trainer_use negb andb]. auto.
Qed.

Lemma C7_witness :
  let self := demo_worker "worker" in
  let run0 := run self 20 failing_env_world initial_state in
  @nil Event = []
  /\ fst run0 = Raised (SystemExit
                 (" Worker_" +:+ str_int (task self) +:+
                  (if test_mode self
                   then " failed to make Atari Gym environment"
                   else " failed to make BTgym environment")))
  /\ exitcode (fst run0) = Some 1%Z
  /\ occurrences is_env_make (history (snd run0)) = 1%nat
  /\ absent is_session_enter (history (snd run0)) = true
  /\ absent is_trainer_use (history (snd run0)) = true.
Proof.
  intros self run0.
  apply (C7_environment_failure_is_fatal self 20 failing_env_world []
           (env_class self) (EnvKwargs (env_kwargs self)) (External "EnvError")
           (skipn 1 (history (snd run0)))).
  vm_compute. reflexivity.
Defined.

Example C7_demo_message :
  fst (run (demo_worker "worker") 20 failing_env_world initial_state)
    = Raised (SystemExit " Worker_0 failed to make BTgym environment").
Proof. vm_compute. reflexivity. Qed.

Lemma loop_left_not_entered self h : loop_left self h -> loop_entered self h -> False.
Proof.
  unfold loop_left, loop_entered.
  destruct h as [|[|[] [[]|?|]| | |] rest]; try contradiction.
  unfold holds. destruct (last_read rest); [lia|contradiction].
Qed.

Lemma loop_left_pending self h : loop_left self h -> pending h = true.
Proof.
  unfold loop_left.
  destruct h as [|[|[] [[]|?|]| | |] rest]; try contradiction; reflexivity.
Qed.

Lemma loop_left_next self h e :
  loop_left self h -> ok self e h -> exists r, e = EvU env_close r.
Proof.
  intros Hleft (Hproc & _ & _ & _ & _ & _ & _ & Hexp).
  assert (H : is_process e = true \/ is_close e = true).
  { unfold loop_left in Hleft.
    destruct h as [|[|[] [[]|?|]| | |] rest]; try contradiction; exact Hexp. }
  destruct H as [H|H].
  - destruct e as [[]| | | |]; try discriminate H.
    destruct (loop_left_not_entered self h Hleft Hproc).
  - destruct e as [[] r| | | |]; try discriminate H. exists r. reflexivity.
Qed.

(** C2, as the code has it: [env.close()] is called at most once in a run,
    and only when the loop has just been left through its condition and
    every earlier call has returned.  Whenever the loop is left through its
    condition, [env.close()] is the next call.  When [env.close()] raises,
    the exception is handed to the [with] statement and [sv.stop()] is not
    called by [run]. *)
Theorem C2_close_only_after_a_clean_loop self fuel w :
  let h := history (snd (run self fuel w initial_state)) in
  (occurrences is_close h <= 1)%nat
  /\ (forall later r earlier,
        h = later ++ EvU env_close r :: earlier ->
        loop_left self earlier /\ all_returned earlier = true)
  /\ (forall later earlier,
        h = later ++ earlier -> loop_left self earlier ->
        exists later' r, later = later' ++ [EvU env_close r])
  /\ (forall later x earlier,
        h = later ++ EvU env_close (Raises x) :: earlier ->
        absent is_sv_stop h = true
        /\ exists later' r,
             later = later' ++ [EvB (as_default_exit (Some x)) r]).
Proof.
  intros h. pose proof (run_always self fuel w) as Hok.
  pose proof (run_fin self fuel w) as (_ & Hpend & _).
  fold h in Hok, Hpend. split; [|split; [|split]].
  - apply (at_most_once (ok self) is_close (close_fresh self)). exact Hok.
  - intros later r earlier Hsplit.
    pose proof (always_split _ _ _ _ _ Hok Hsplit) as (_ & Hclose & _).
    cbn [ok_close] in Hclose. tauto.
  - intros later earlier Hsplit Hleft. rewrite Hsplit in Hok, Hpend.
    destruct (next_event _ _ _ Hok) as [-> | (later' & e & -> & He)].
    + cbn [app] in Hpend. rewrite (loop_left_pending _ _ Hleft) in Hpend.
      discriminate Hpend.
    + destruct (loop_left_next _ _ _ Hleft He) as [r ->]. eauto.
  - intros later x earlier Hsplit. rewrite Hsplit in Hok, Hpend.
    pose proof (always_split _ _ _ _ _ Hok eq_refl) as (_ & Hclose & _).
    cbn [ok_close] in Hclose. destruct Hclose as (_ & _ & Habs). split.
    + rewrite Hsplit, absent_app. cbn [absent is_sv_stop negb andb].
      apply andb_true_intro. split.
      * apply (absent_dependent_later (ok self) is_close is_sv_stop closed
                 (sv_stop_follows_closed self) later _ earlier Hok eq_refl).
        apply (absent_later (ok self) is_close (close_fresh self) later _
                 earlier Hok eq_refl).
      * apply (absent_dependent (ok self) is_close is_sv_stop closed
                 (sv_stop_follows_closed self)); [|exact Habs].
        apply always_suffix in Hok. apply Hok.
    + destruct (next_event _ _ _ Hok) as [-> | (later' & e & -> & He)];
        [discriminate Hpend|].
      destruct He as (_ & _ & _ & _ & _ & _ & _ & Hexp). cbn [expects] in Hexp.
      destruct e as [|[| | |[y|]|] r| | |]; try contradiction.
      subst y. eauto.
Qed.

Lemma C2_witness :
  let self := demo_worker "worker" in
  let h := history (snd (run self 20 failing_close_world initial_state)) in
  (loop_left self (skipn 3 h) /\ all_returned (skipn 3 h) = true)
  /\ (exists later' r, firstn 3 h = later' ++ [EvU env_close r])
  /\ (absent is_sv_stop h = true
      /\ exists later' r,
           firstn 2 h
             = later' ++ [EvB (as_default_exit (Some (External "CloseError"))) r]).
Proof.
  intros self h.
  destruct (C2_close_only_after_a_clean_loop self 20 failing_close_world)
    as (_ & A & B & C).
  split; [|split].
  - apply (A (firstn 2 h) (Raises (External "CloseError")) (skipn 3 h)).
    vm_compute. reflexivity.
  - apply (B (firstn 3 h) (skipn 3 h)).
    + vm_compute. reflexivity.
    + vm_compute. intros H. discriminate H.
  - apply (C (firstn 2 h) (External "CloseError") (skipn 3 h)).
    vm_compute. reflexivity.
Defined.

(** C2, as the claim states it, fails twice.  When a training iteration
    raises, [env.close()] is never called; when [env.close()] itself raises,
    the exception leaves [run], [sv.stop()] is skipped and nothing is
    logged after the failure. *)
Lemma C2_counterexample :
  let self := demo_worker "worker" in
  let failed := run self 20 failing_process_world initial_state in
  let unclosed := run self 20 failing_close_world initial_state in
  (fst failed = Raised (External "IterationError")
   /\ occurrences is_close (history (snd failed)) = 0%nat)
  /\ (fst unclosed = Raised (External "CloseError")
      /\ occurrences is_sv_stop (history (snd unclosed)) = 0%nat
      /\ firstn 3 (history (snd unclosed))
         = [ EvB (managed_session_exit (Some (External "CloseError")))
               (Returns false);
             EvB (as_default_exit (Some (External "CloseError")))
               (Returns false);
             EvU env_close (Raises (External "CloseError")) ]).
Proof. vm_compute. repeat split. Qed.

(** ** The order of the calls: every run *)

Ltac hist_cbn2 :=
  cbn [Inv2 fin2 always ok2 fail_fast inside single prepared given provided
       explains explained occurs in_session
       is_trainer_make is_vars is_writer is_supervisor is_session_exit
       is_log is_exit is_suppression is_session_op
       all_returned absent returned is_server is_env_make is_session_enter
       negb andb orb history var_global_step record] in *.

Ltac use_facts2 :=
  repeat match goal with
  | H : all_returned ?h = _ |- context [all_returned ?h] => rewrite H
  | H : absent ?p ?h = _ |- context [absent ?p ?h] => rewrite H
  | H : occurs ?p ?h = _ |- context [occurs ?p ?h] => rewrite H
  | H : in_session ?h = _ |- context [in_session ?h] => rewrite H
  | H : test_mode ?x = _ |- context [test_mode ?x] => rewrite H
  | H : ?m !! ?k = _ |- context [?m !! ?k] => rewrite H
  end.

Ltac close_leaf2 :=
  first
  [ exact I
  | assumption
  | reflexivity
  | discriminate
  | intros; congruence
  | solve [auto 6]
  | unfold env_args, msg_env_failed; use_facts2; reflexivity
  | intros; unfold msg_env_failed; use_facts2; solve [auto 6] ].

Ltac leaf2 :=
  repeat (progress (hist_cbn2; use_facts2));
  repeat split; close_leaf2.

Lemma training_loop_post2 self fuel w : forall s,
  LoopInv2 self s -> wp (training_loop self fuel) w s (LoopPost2 self).
Proof.
  induction fuel as [|fuel IH];
    intros [h v] (Hok & Hret & Hin & Hex & Hv);
    cbn [history var_global_step] in *; (destruct v as [g|]; [|congruence]).
  - cbn [training_loop]. wp_step. unfold LoopPost2. leaf2.
  - cbn [training_loop]. wp_run.
    all: try (apply IH; unfold LoopInv2); try unfold LoopPost2.
    all: leaf2.
Qed.

Lemma for_each_log_calm2 {A} self (f : A -> string) w (l : list A) : forall s,
  Calm2 self s ->
  wp (for_each l (fun v => log DEBUG (f v))) w s
     (fun o s' => o = Done tt /\ Calm2 self s').
Proof.
  induction l as [|x l IH];
    intros [h v]
      (Hok & Hv & Hret & Hin & H1 & H2 & H3 & H4 & H5 & H6 & H7 & H8);
    cbn [history var_global_step] in *; subst v; cbn [for_each].
  - wp_step. unfold Calm2. leaf2.
  - wp_run. apply IH. unfold Calm2. leaf2.
Qed.

(** Every run of [run] ends in a state whose history keeps the order of
    the calls. *)
Lemma run_inv2 self fuel w : wp (run self fuel) w initial_state (Inv2 self).
Proof.
  unfold run, run_worker, make_environment, session_body, initial_state.
  wp_run.
  all: lazymatch goal with
       | |- wp (for_each (variables_to_save ?gv) _) _ _ _ =>
           eapply wp_consequence;
           [ apply (for_each_log_calm2 self); unfold Calm2; leaf2
           | intros ? [h v]
               (-> & Hok & Hv & Hret & Hin & H1 & H2 & H3 & H4 & H5 & H6
                & H7 & H8);
             cbn [history var_global_step] in *; subst v; wp_run ]
       | |- _ => idtac
       end.
  all: lazymatch goal with
       | |- wp (training_loop _ _) _ _ _ =>
           eapply wp_consequence;
           [ apply training_loop_post2; unfold LoopInv2; leaf2
           | intros [[]|x| |] [h' v'] (Hok' & Hin' & Hex' & Hv' & Hret');
             cbn [history var_global_step] in *;
             try specialize (Hret' eq_refl);
             wp_run ]
       | |- _ => idtac
       end.
  all: leaf2.
Qed.

(** ** Further properties of [run] *)

Lemma run_always2 self fuel w :
  always (ok2 self) (history (snd (run self fuel w initial_state))).
Proof. exact (proj1 (run_inv2 self fuel w)). Qed.

Lemma run_fin2 self fuel w :
  fin2 self (fst (run self fuel w initial_state))
    (snd (run self fuel w initial_state)).
Proof. exact (proj2 (run_inv2 self fuel w)). Qed.

Lemma all_returned_app l1 l2 :
  all_returned (l1 ++ l2) = all_returned l1 && all_returned l2.
Proof.
  induction l1 as [|x l1 IH]; simpl; [reflexivity|].
  rewrite IH. destruct (returned x); reflexivity.
Qed.

Lemma occurs_app p l1 l2 : occurs p (l1 ++ l2) = occurs p l1 || occurs p l2.
Proof.
  induction l1 as [|x l1 IH]; simpl; [reflexivity|].
  rewrite IH. destruct (p x); reflexivity.
Qed.

Lemma occurs_occurrences p h :
  occurs p h = true -> (1 <= occurrences p h)%nat.
Proof.
  unfold occurrences. induction h as [|x h IH]; simpl; [discriminate|].
  destruct (p x); simpl; [lia|auto].
Qed.

(** After a call that did not return, every later event of the run is one
    of the two [__exit__] calls of the [with] statement or a log line. *)
Theorem after_a_failure_only_exits self fuel w later e earlier :
  history (snd (run self fuel w initial_state)) = later ++ e :: earlier ->
  returned e = false ->
  forall e', In e' later -> is_exit e' = true \/ is_log e' = true.
Proof.
  intros Hsplit He e' Hin. apply in_split in Hin as (l1 & l2 & ->).
  rewrite <- app_assoc in Hsplit. cbn [app] in Hsplit.
  pose proof (always_split _ _ _ _ _ (run_always2 self fuel w) Hsplit)
    as (Hff & _).
  cbn [fail_fast] in Hff.
  destruct (is_log e'); [auto|]. destruct (is_exit e'); [auto|].
  cbn in Hff. rewrite all_returned_app in Hff. cbn [all_returned] in Hff.
  rewrite He in Hff. cbn in Hff. rewrite andb_false_r in Hff. discriminate.
Qed.

Lemma after_a_failure_only_exits_witness :
  returned (EvU env_close (Raises (External "CloseError"))) = false
  /\ Forall (fun e' => is_exit e' = true \/ is_log e' = true)
       (firstn 2 (history (snd (run (demo_worker "worker") 20
                                  failing_close_world initial_state)))).
Proof.
  split; [reflexivity|]. apply List.Forall_forall.
  apply (after_a_failure_only_exits (demo_worker "worker") 20
           failing_close_world _ (EvU env_close (Raises (External "CloseError")))
           (skipn 3 (history (snd (run (demo_worker "worker") 20
                                     failing_close_world initial_state))))).
  - vm_compute. reflexivity.
  - reflexivity.
Defined.

(** The exception that ends a run is the one raised by its last call, or
    the one the session's [__exit__] was handed and did not suppress, or
    one of the four the code or the interpreter raises itself:
    [SystemExit] for a failed environment class, [KeyError] for a missing
    ['data_master'], [TypeError] for a keyword given twice to the trainer
    class, and [UnboundLocalError] when the last line reads a [global_step]
    that was never assigned. *)
Theorem raised_exception_explained self fuel w x :
  fst (run self fuel w initial_state) = Raised x ->
  explains self (history (snd (run self fuel w initial_state))) x.
Proof.
  intros Ho. pose proof (run_fin2 self fuel w) as (Hex & _).
  rewrite Ho in Hex. exact Hex.
Qed.

Lemma raised_exception_explained_witness :
  explains (demo_worker "worker")
    (history (snd (run (demo_worker "worker") 20 failing_process_world
                     initial_state)))
    (External "IterationError").
Proof.
  apply raised_exception_explained. vm_compute. reflexivity.
Defined.

(** A run that returns normally, and in which no [__exit__] suppressed an
    exception, has had every one of its calls return: [run] itself never
    swallows a failure. *)
Theorem normal_return_hides_no_failure self fuel w :
  fst (run self fuel w initial_state) = Done tt ->
  absent is_suppression (history (snd (run self fuel w initial_state))) = true ->
  all_returned (history (snd (run self fuel w initial_state))) = true.
Proof.
  intros Ho Hs. pose proof (run_fin2 self fuel w) as (_ & H & _). auto.
Qed.

Lemma normal_return_hides_no_failure_witness :
  all_returned demo_history = true.
Proof.
  apply (normal_return_hides_no_failure (demo_worker "worker") 20 calm_world);
    vm_compute; reflexivity.
Defined.

Lemma session_enter_fresh self e earlier :
  is_session_enter e = true -> ok2 self e earlier ->
  absent is_session_enter earlier = true.
Proof.
  intros He (_ & _ & (_ & _ & _ & _ & _ & H & _) & _).
  rewrite He in H. exact H.
Qed.

Lemma session_exit_fresh self e earlier :
  is_session_exit e = true -> ok2 self e earlier ->
  absent is_session_exit earlier = true.
Proof.
  intros He (_ & _ & (_ & _ & _ & _ & _ & _ & H) & _).
  rewrite He in H. exact H.
Qed.

Lemma server_fresh self e earlier :
  is_server e = true -> ok2 self e earlier -> absent is_server earlier = true.
Proof.
  intros He (_ & _ & (H & _) & _). rewrite He in H. exact H.
Qed.

Lemma trainer_make_fresh self e earlier :
  is_trainer_make e = true -> ok2 self e earlier ->
  absent is_trainer_make earlier = true.
Proof.
  intros He (_ & _ & (_ & H & _) & _). rewrite He in H. exact H.
Qed.

Lemma vars_fresh self e earlier :
  is_vars e = true -> ok2 self e earlier -> absent is_vars earlier = true.
Proof.
  intros He (_ & _ & (_ & _ & H & _) & _). rewrite He in H. exact H.
Qed.

Lemma writer_fresh self e earlier :
  is_writer e = true -> ok2 self e earlier -> absent is_writer earlier = true.
Proof.
  intros He (_ & _ & (_ & _ & _ & H & _) & _). rewrite He in H. exact H.
Qed.

Lemma supervisor_fresh self e earlier :
  is_supervisor e = true -> ok2 self e earlier ->
  absent is_supervisor earlier = true.
Proof.
  intros He (_ & _ & (_ & _ & _ & _ & H & _) & _). rewrite He in H. exact H.
Qed.

(** A session that was entered and is no longer open has been left. *)
Lemma left_session later c earlier :
  absent is_session_enter later = true ->
  in_session (later ++ EvU (managed_session_enter c) (Returns tt) :: earlier)
    = false ->
  occurs is_session_exit later = true.
Proof.
  induction later as [|e later IH]; cbn [app]; [discriminate|].
  cbn [absent]. intros Habs Hin. apply andb_prop in Habs as [He Habs].
  cbn [occurs]. destruct (is_session_exit e) eqn:Hexit; [reflexivity|].
  cbn [orb]. apply IH; [exact Habs|].
  destruct e as [[] r|[] r| | |]; cbn in He, Hexit, Hin |- *;
    try exact Hin; discriminate.
Qed.

(** The calls of the [with] block are made only while the session is
    open; the session's [__exit__] is called at most once; and a run that
    entered the session and then returned or raised has called it. *)
Theorem session_is_a_bracket self fuel w :
  let o := fst (run self fuel w initial_state) in
  let h := history (snd (run self fuel w initial_state)) in
  (forall later e earlier,
      h = later ++ e :: earlier -> is_session_op e = true ->
      in_session earlier = true)
  /\ (occurrences is_session_exit h <= 1)%nat
  /\ (forall later c earlier,
        h = later ++ EvU (managed_session_enter c) (Returns tt) :: earlier ->
        o <> Blocked -> o <> OutOfFuel ->
        occurrences is_session_exit h = 1%nat).
Proof.
  intros o h. pose proof (run_always2 self fuel w) as Hok.
  pose proof (run_fin2 self fuel w) as (_ & _ & Hopen).
  fold h in Hok, Hopen. fold o in Hopen.
  assert (Hle : (occurrences is_session_exit h <= 1)%nat)
    by (apply (at_most_once (ok2 self) _ (session_exit_fresh self)); exact Hok).
  split; [|split; [exact Hle|]].
  - intros later e earlier Hsplit He.
    pose proof (always_split _ _ _ _ _ Hok Hsplit) as (_ & Hin & _).
    cbn [inside] in Hin. rewrite He in Hin. exact Hin.
  - intros later c earlier Hsplit Hb Hf.
    assert (Hclosed : in_session h = false).
    { destruct (in_session h); [|reflexivity].
      destruct (Hopen eq_refl); contradiction. }
    rewrite Hsplit in Hok, Hclosed.
    pose proof (absent_later (ok2 self) _ (session_enter_fresh self)
                  later _ earlier Hok eq_refl) as Habs.
    pose proof (left_session _ _ _ Habs Hclosed) as Hocc.
    apply occurs_occurrences in Hocc.
    assert (occurrences is_session_exit later
            <= occurrences is_session_exit h)%nat.
    { rewrite Hsplit, occurrences_app. lia. }
    lia.
Qed.

Lemma session_is_a_bracket_witness :
  in_session (skipn 5 demo_history) = true
  /\ occurrences is_session_exit demo_history = 1%nat.
Proof.
  destruct (session_is_a_bracket (demo_worker "worker") 20 calm_world)
    as (A & _ & C).
  split.
  - apply (A (firstn 4 demo_history) (EvU env_close (Returns tt))
             (skipn 5 demo_history)).
    + vm_compute. reflexivity.
    + reflexivity.
  - apply (C (firstn 20 demo_history) (session_config (demo_worker "worker"))
             (skipn 21 demo_history)).
    + vm_compute. reflexivity.
    + vm_compute. discriminate.
    + vm_compute. discriminate.
Defined.

(** A run starts at most one server and builds at most one environment,
    one trainer, one summary writer and one supervisor; it asks for the
    global variables at most once and enters at most one session. *)
Theorem one_of_each self fuel w :
  let h := history (snd (run self fuel w initial_state)) in
  (occurrences is_server h <= 1)%nat
  /\ (occurrences is_env_make h <= 1)%nat
  /\ (occurrences is_trainer_make h <= 1)%nat
  /\ (occurrences is_vars h <= 1)%nat
  /\ (occurrences is_writer h <= 1)%nat
  /\ (occurrences is_supervisor h <= 1)%nat
  /\ (occurrences is_session_enter h <= 1)%nat.
Proof.
  intros h. pose proof (run_always2 self fuel w) as Hok.
  pose proof (run_always self fuel w) as Hok1. fold h in Hok, Hok1.
  repeat split.
  - apply (at_most_once (ok2 self) _ (server_fresh self)); exact Hok.
  - apply (at_most_once (ok self) _ (env_fresh self)); exact Hok1.
  - apply (at_most_once (ok2 self) _ (trainer_make_fresh self)); exact Hok.
  - apply (at_most_once (ok2 self) _ (vars_fresh self)); exact Hok.
  - apply (at_most_once (ok2 self) _ (writer_fresh self)); exact Hok.
  - apply (at_most_once (ok2 self) _ (supervisor_fresh self)); exact Hok.
  - apply (at_most_once (ok2 self) _ (session_enter_fresh self)); exact Hok.
Qed.

(** The session is entered, with the device filters of this rank, only
    when every earlier call has returned and the server, the environment,
    the trainer, the list of variables, the summary writer and the
    supervisor have all been made. *)
Theorem session_entered_after_setup self fuel w later c r earlier :
  history (snd (run self fuel w initial_state))
    = later ++ EvU (managed_session_enter c) r :: earlier ->
  c = session_config self
  /\ all_returned earlier = true
  /\ occurs is_server earlier = true
  /\ occurs is_env_make earlier = true
  /\ occurs is_trainer_make earlier = true
  /\ occurs is_vars earlier = true
  /\ occurs is_writer earlier = true
  /\ occurs is_supervisor earlier = true.
Proof.
  intros Hsplit.
  pose proof (always_split _ _ _ _ _ (run_always2 self fuel w) Hsplit)
    as (Hff & _ & _ & Hprep & Hgiven).
  cbn in Hff, Hprep, Hgiven. tauto.
Qed.

Lemma session_entered_after_setup_witness :
  session_config (demo_worker "worker") = session_config (demo_worker "worker")
  /\ all_returned (skipn 21 demo_history) = true
  /\ occurs is_server (skipn 21 demo_history) = true
  /\ occurs is_env_make (skipn 21 demo_history) = true
  /\ occurs is_trainer_make (skipn 21 demo_history) = true
  /\ occurs is_vars (skipn 21 demo_history) = true
  /\ occurs is_writer (skipn 21 demo_history) = true
  /\ occurs is_supervisor (skipn 21 demo_history) = true.
Proof.
  apply (session_entered_after_setup (demo_worker "worker") 20 calm_world
           (firstn 20 demo_history) _ (Returns tt) (skipn 21 demo_history)).
  vm_compute. reflexivity.
Defined.

(** The environment class is the configured one and is called after the
    server has started and every earlier call has returned: in production
    mode with the whole of [env_kwargs] as keywords, in diagnostic mode
    with the single value [env_kwargs['gym_id']]. *)
Theorem environment_arguments self fuel w later cls a r earlier :
  history (snd (run self fuel w initial_state))
    = later ++ EvU (env_class_call cls a) r :: earlier ->
  cls = env_class self
  /\ (if test_mode self
      then exists gym_id,
             env_kwargs self !! "gym_id" = Some gym_id
             /\ a = EnvPositional gym_id
      else a = EnvKwargs (env_kwargs self))
  /\ all_returned earlier = true
  /\ occurs is_server earlier = true.
Proof.
  intros Hsplit.
  pose proof (always_split _ _ _ _ _ (run_always2 self fuel w) Hsplit)
    as (Hff & _ & _ & Hprep & Hcls & Hargs).
  cbn in Hff, Hprep. unfold env_args in Hargs.
  repeat split; auto.
  destruct (test_mode self).
  - destruct (env_kwargs self !! "gym_id") as [v|]; [|discriminate].
    exists v. split; congruence.
  - congruence.
Qed.

Lemma environment_arguments_witness :
  env_class (demo_worker "worker") = env_class (demo_worker "worker")
  /\ (if test_mode (demo_worker "worker")
      then exists gym_id,
             env_kwargs (demo_worker "worker") !! "gym_id" = Some gym_id
             /\ EnvKwargs (env_kwargs (demo_worker "worker"))
                = EnvPositional gym_id
      else EnvKwargs (env_kwargs (demo_worker "worker"))
           = EnvKwargs (env_kwargs (demo_worker "worker")))
  /\ all_returned (skipn 31 demo_history) = true
  /\ occurs is_server (skipn 31 demo_history) = true.
Proof.
  apply (environment_arguments (demo_worker "worker") 20 calm_world
           (firstn 30 demo_history) _ _ (Returns tt) (skipn 31 demo_history)).
  vm_compute. reflexivity.
Defined.

(** The trainer class is the configured one and is called only after the
    environment class was called and every earlier call has returned; it
    gets this rank, the policy configuration, the random seed and
    [trainer_kwargs]. *)
Theorem trainer_arguments self fuel w later cls a r earlier :
  history (snd (run self fuel w initial_state))
    = later ++ EvU (trainer_class_call cls a) r :: earlier ->
  cls = trainer_class self
  /\ t_task a = task self
  /\ t_policy_config a = policy_config self
  /\ t_random_seed a = random_seed self
  /\ t_kwargs a = trainer_kwargs self
  /\ all_returned earlier = true
  /\ occurs env_made earlier = true.
Proof.
  intros Hsplit. pose proof (run_always2 self fuel w) as Hok.
  pose proof (always_split _ _ _ _ _ Hok Hsplit)
    as (Hff & _ & _ & Hprep & Hcls & ->).
  cbn in Hff, Hprep. repeat split; auto.
  clear Hsplit Hok. induction earlier as [|e earlier IH]; [discriminate|].
  cbn in Hff, Hprep |- *. apply andb_prop in Hff as [He Hff].
  destruct (is_env_make e) eqn:Hmake.
  - destruct e as [[] [[]|?|]| | | |]; try discriminate; reflexivity.
  - cbn in Hprep. rewrite (IH Hprep Hff). apply orb_true_r.
Qed.

Lemma trainer_arguments_witness :
  trainer_class (demo_worker "worker") = trainer_class (demo_worker "worker")
  /\ t_task (trainer_args (demo_worker "worker")) = task (demo_worker "worker")
  /\ t_policy_config (trainer_args (demo_worker "worker"))
     = policy_config (demo_worker "worker")
  /\ t_random_seed (trainer_args (demo_worker "worker"))
     = random_seed (demo_worker "worker")
  /\ t_kwargs (trainer_args (demo_worker "worker"))
     = trainer_kwargs (demo_worker "worker")
  /\ all_returned (skipn 29 demo_history) = true
  /\ occurs env_made (skipn 29 demo_history) = true.
Proof.
  apply (trainer_arguments (demo_worker "worker") 20 calm_world
           (firstn 28 demo_history) _ _ (Returns tt) (skipn 29 demo_history)).
  vm_compute. reflexivity.
Defined.

(** ** A world in which every call returns *)

Section Cooperative.
Context (w : World) (s : State).

Lemma wp_callU_returns c (Q : Outcome unit -> State -> Prop) :
  w_unit w (length (history s)) c = Returns tt ->
  Q (Done tt) (record (EvU c (Returns tt)) s) ->
  wp (callU c) w s Q.
Proof. unfold wp, callU. intros ->. exact (fun H => H). Qed.

Lemma wp_callB_returns c b (Q : Outcome bool -> State -> Prop) :
  w_bool w (length (history s)) c = Returns b ->
  Q (Done b) (record (EvB c (Returns b)) s) ->
  wp (callB c) w s Q.
Proof. unfold wp, callB. intros ->. exact (fun H => H). Qed.

Lemma wp_callI_returns c g (Q : Outcome Z -> State -> Prop) :
  w_int w (length (history s)) c = Returns g ->
  Q (Done g) (record (EvI c (Returns g)) s) ->
  wp (callI c) w s Q.
Proof. unfold wp, callI. intros ->. exact (fun H => H). Qed.

Lemma wp_callV_returns c gv (Q : Outcome (list TfVariable) -> State -> Prop) :
  w_vars w (length (history s)) c = Returns gv ->
  Q (Done gv) (record (EvV c (Returns gv)) s) ->
  wp (callV c) w s Q.
Proof. unfold wp, callV. intros ->. exact (fun H => H). Qed.

Lemma wp_for_each_log {A} (f : A -> string) (l : list A)
  (Q : Outcome unit -> State -> Prop) :
  (forall h', Q (Done tt)
                {| history := h'; var_global_step := var_global_step s |}) ->
  wp (for_each l (fun v => log DEBUG (f v))) w s Q.
Proof.
  revert s. induction l as [|x l IH]; intros s0 H; cbn [for_each].
  - apply wp_ret. destruct s0. apply H.
  - apply wp_bind, wp_log. cbv beta iota delta [after]. apply IH. exact H.
Qed.
End Cooperative.

(** ** The role dispatch *)

(** *** The history only grows *)

Lemma wp_grows {A} (m : Py A) w s :
  grows m -> wp m w s (fun _ s' => exists later, history s' = later ++ history s).
Proof. intros H. exact (H w s). Qed.

Lemma grows_ret {A} (a : A) : grows (ret a).
Proof. intros w s. exists []. reflexivity. Qed.

Lemma grows_raise {A} e : grows (@raise A e).
Proof. intros w s. exists []. reflexivity. Qed.

Lemma grows_out_of_fuel {A} : grows (@out_of_fuel A).
Proof. intros w s. exists []. reflexivity. Qed.

Lemma grows_bind {A B} (m : Py A) (f : A -> Py B) :
  grows m -> (forall a, grows (f a)) -> grows (bind m f).
Proof.
  intros Hm Hf w s. unfold bind. destruct (Hm w s) as [l1 H1].
  destruct (m w s) as [[a|e| |] s']; cbn [snd] in *; eauto.
  destruct (Hf a w s') as [l2 H2]. exists (l2 ++ l1).
  rewrite H2, H1, app_assoc. reflexivity.
Qed.

Lemma grows_reply {A} (mk : Reply A -> Event) (r : Reply A) s :
  exists later, history (snd (reply_to mk r s)) = later ++ history s.
Proof. destruct r; eexists [_]; reflexivity. Qed.

Lemma grows_callU c : grows (callU c).
Proof. intros w s. apply grows_reply. Qed.
Lemma grows_callB c : grows (callB c).
Proof. intros w s. apply grows_reply. Qed.
Lemma grows_callI c : grows (callI c).
Proof. intros w s. apply grows_reply. Qed.
Lemma grows_callV c : grows (callV c).
Proof. intros w s. apply grows_reply. Qed.

Lemma grows_log lvl msg : grows (log lvl msg).
Proof. intros w s. eexists [_]. reflexivity. Qed.

Lemma grows_assign v : grows (assign_global_step v).
Proof. intros w s. exists []. reflexivity. Qed.

Lemma grows_read : grows read_global_step.
Proof.
  intros w s. exists []. unfold read_global_step.
  destruct (var_global_step s); reflexivity.
Qed.

Lemma grows_getitem d key : grows (getitem d key).
Proof. unfold getitem. destruct (d !! key); [apply grows_ret|apply grows_raise]. Qed.

Lemma grows_if {A} (b : bool) (m1 m2 : Py A) :
  grows m1 -> grows m2 -> grows (if b then m1 else m2).
Proof. destruct b; auto. Qed.

Lemma grows_try_except {A} (m : Py A) handler :
  grows m -> (forall e, grows (handler e)) -> grows (try_except m handler).
Proof.
  intros Hm Hh w s. unfold try_except. destruct (Hm w s) as [l1 H1].
  destruct (m w s) as [[a|e| |] s']; cbn [snd] in *; eauto.
  destruct (Hh e w s') as [l2 H2]. exists (l2 ++ l1).
  rewrite H2, H1, app_assoc. reflexivity.
Qed.

Lemma grows_with enter exit_ body :
  grows body -> grows (with_ enter exit_ body).
Proof.
  intros Hb. unfold with_. apply grows_bind; [apply grows_callU|]. intros _ w s.
  destruct (Hb w s) as [l1 H1].
  destruct (body w s) as [[a|e| |] s']; cbn [snd] in *; eauto.
  - destruct (grows_bind (callB (exit_ None)) (fun _ => ret tt)
                (grows_callB _) (fun _ => grows_ret tt) w s') as [l2 H2].
    exists (l2 ++ l1). rewrite H2, H1, app_assoc. reflexivity.
  - destruct (grows_bind (callB (exit_ (Some e)))
                (fun suppress : bool => if suppress then ret tt else raise e)
                (grows_callB _)
                (fun b => grows_if b _ _ (grows_ret tt) (grows_raise e)) w s')
      as [l2 H2].
    exists (l2 ++ l1). rewrite H2, H1, app_assoc. reflexivity.
Qed.

Lemma grows_for_each {A} (l : list A) (f : A -> Py unit) :
  (forall x, grows (f x)) -> grows (for_each l f).
Proof.
  intros Hf. induction l as [|x l IH]; cbn [for_each]; [apply grows_ret|].
  apply grows_bind; auto.
Qed.

Ltac grows_step :=
  lazymatch goal with
  | |- grows (ret _) => apply grows_ret
  | |- grows (raise _) => apply grows_raise
  | |- grows out_of_fuel => apply grows_out_of_fuel
  | |- grows (callU _) => apply grows_callU
  | |- grows (callB _) => apply grows_callB
  | |- grows (callI _) => apply grows_callI
  | |- grows (callV _) => apply grows_callV
  | |- grows (log _ _) => apply grows_log
  | |- grows (assign_global_step _) => apply grows_assign
  | |- grows read_global_step => apply grows_read
  | |- grows (getitem _ _) => apply grows_getitem
  | |- grows (bind _ _) => apply grows_bind; [|intros ?]
  | |- grows (try_except _ _) => apply grows_try_except; [|intros ?]
  | |- grows (with_ _ _ _) => apply grows_with
  | |- grows (for_each _ _) => apply grows_for_each; intros ?
  | |- grows (if _ then _ else _) => apply grows_if
  end.

Lemma grows_training_loop self fuel : grows (training_loop self fuel).
Proof.
  induction fuel as [|fuel IH]; cbn [training_loop]; repeat grows_step.
  exact IH.
Qed.

Lemma grows_session_body self fuel : grows (session_body self fuel).
Proof.
  unfold session_body. repeat grows_step. apply grows_training_loop.
Qed.

Lemma wp_log_then {A B} lvl msg (f : unit -> Py A) (g : A -> Py B) w s Q :
  wp (bind (f tt) g) w (record (EvLog lvl msg) s) Q ->
  wp (bind (bind (log lvl msg) f) g) w s Q.
Proof. exact (fun H => H). Qed.

Lemma run_worker_starts self fuel w s :
  wp (run_worker self fuel) w s
     (fun o s' =>
        exists later r,
          history s'
          = later ++ EvU (tf_train_Server "worker" (task self)
                            worker_server_config) r :: history s
          /\ match r with
             | Returns _ =>
                 exists later',
                   later = later' ++ [EvLog DEBUG "making environment.";
                                      EvLog DEBUG (msg_server_started self)]
             | _ => later = [] /\ o = reply_outcome r
             end).
Proof.
  unfold run_worker, make_environment.
  apply wp_bind, wp_callU; wp_norm.
  - apply wp_bind, wp_log; wp_norm. apply wp_log_then.
    eapply wp_consequence.
    + apply wp_grows. cbv beta zeta. repeat grows_step. apply grows_session_body.
    + cbn [history record]. intros o s' [later Hl]. rewrite Hl.
      exists (later ++ [EvLog DEBUG "making environment.";
                        EvLog DEBUG (msg_server_started self)]), (Returns tt).
      split; [rewrite <- app_assoc; reflexivity|]. exists later. reflexivity.
  - intros e. exists [], (Raises e). cbn [history record]. auto.
  - exists [], Diverges. cbn [history record]. auto.
Qed.

Lemma in_session_entered h :
  in_session h = true ->
  exists later c earlier,
    h = later ++ EvU (managed_session_enter c) (Returns tt) :: earlier.
Proof.
  induction h as [|e h IH]; cbn [in_session]; [discriminate|].
  intros H.
  assert (Hcases :
    (exists c, e = EvU (managed_session_enter c) (Returns tt))
    \/ in_session h = true).
  { destruct e as [[] [[]|x|]|[] r|c r|c r|lvl msg]; try discriminate H;
      eauto. }
  destruct Hcases as [[c ->]|Hin].
  - exists [], c, h. reflexivity.
  - destruct (IH Hin) as (later & c & earlier & ->).
    exists (e :: later), c, earlier. reflexivity.
Qed.

Lemma occurs_later p later e earlier :
  occurs p earlier = true -> occurs p (later ++ e :: earlier) = true.
Proof.
  intros H. rewrite occurs_app. cbn [occurs]. rewrite H.
  destruct (occurs p later), (p e); reflexivity.
Qed.

Lemma training_loop_role role self fuel :
  training_loop (under_role role self) fuel = training_loop self fuel.
Proof.
  induction fuel as [|fuel IH]; cbn [training_loop]; [reflexivity|].
  rewrite IH. reflexivity.
Qed.

Lemma run_worker_role role self fuel :
  run_worker (under_role role self) fuel = run_worker self fuel.
Proof.
  unfold run_worker, make_environment, session_body.
  rewrite training_loop_role. reflexivity.
Qed.

(** C1, as the code has it: a role name that is not a substring of ["ps"]
    is not rejected.  Every server such a run starts has the job name
    ["worker"], this rank and the worker configuration, and once the
    cluster definition is built the next call starts that server.  The run
    is, call for call and in its outcome, the run of the same process
    under the role ["worker"].  It ends before the server call only when
    one of the calls of lines 96-102 does not return, and then as that
    call does; otherwise it calls [tf.train.Server] as a worker right
    after them, and once that call has returned it logs so and goes on to
    make the environment.  A run that returns normally has called the
    environment class and the trainer class, has entered the session and
    ends with the last log line. *)
Theorem C1_other_roles_run_as_worker self fuel w :
  str_in (job_name self) "ps" = false ->
  let o := fst (run self fuel w initial_state) in
  let h := history (snd (run self fuel w initial_state)) in
  (forall later j t c r earlier,
      h = later ++ EvU (tf_train_Server j t c) r :: earlier ->
      j = "worker" /\ t = task self /\ c = worker_server_config)
  /\ (forall later spec earlier,
        h = later ++ EvU (ClusterSpec_as_cluster_def spec) (Returns tt) :: earlier ->
        exists later' r,
          later = later'
                  ++ [EvU (tf_train_Server "worker" (task self)
                             worker_server_config) r])
  /\ run self fuel w initial_state
     = run (under_role "worker" self) fuel w initial_state
  /\ (stopped_before_server o h \/ started_as_worker self o h)
  /\ (o = Done tt ->
      occurs is_env_make h = true
      /\ occurs is_trainer_make h = true
      /\ occurs is_session_enter h = true
      /\ exists g rest, h = EvLog WARNING (msg_reached self g) :: rest).
Proof.
  intros Hrole o h. pose proof (run_always self fuel w) as Hok.
  pose proof (run_fin self fuel w) as (_ & Hpend & _ & Hdone & _).
  fold h in Hok, Hpend, Hdone. fold o in Hdone.
  split; [|split; [|split; [|split]]].
  - intros later j t c r earlier Hsplit.
    pose proof (always_split _ _ _ _ _ Hok Hsplit) as Hev.
    hist_cbn. rewrite Hrole in Hev. tauto.
  - intros later spec earlier Hsplit. rewrite Hsplit in Hok.
    destruct (next_event _ _ _ Hok) as [-> | (later' & e & -> & He)].
    + rewrite Hsplit in Hpend. discriminate Hpend.
    + exists later'. destruct He as (_ & _ & _ & _ & Hsrv & _ & _ & Hexp).
      hist_cbn. destruct e as [[] r| | | |]; try discriminate Hexp.
      hist_cbn. rewrite Hrole in Hsrv. destruct Hsrv as (-> & -> & ->).
      exists r. reflexivity.
  - unfold run. rewrite Hrole, run_worker_role. reflexivity.
  - unfold o, h.
    change (wp (run self fuel) w initial_state
              (fun o s => stopped_before_server o (history s)
                          \/ started_as_worker self o (history s))).
    unfold run, initial_state. rewrite Hrole. wp_run.
    all: lazymatch goal with
         | |- wp (run_worker _ _) _ _ _ =>
             eapply wp_consequence; [apply run_worker_starts|];
             cbn [history record]; intros o' s' (later & r & Hh & Hr);
             right; exists later, r; split; [|exact Hr];
             rewrite Hh; unfold preamble; use_facts; reflexivity
         | |- _ =>
             left; unfold stopped_before_server; do 3 eexists;
             cbn [history record];
             split; [reflexivity|]; repeat split
         end.
  - intros Ho. pose proof (Hdone Ho Hrole) as Hc.
    pose proof (run_always2 self fuel w) as Hok2. fold h in Hok2.
    destruct h as [|[| | | |[] msg] [|[|[] [b| |]| | |] rest]];
      try discriminate Hc.
    destruct Hok as ((_ & _ & _ & _ & _ & _ & Hlog & _) & _).
    destruct Hok2 as (_ & (_ & Hin & _) & Hok2).
    cbn in Hin. cbn [ok_log session_left] in Hlog.
    destruct (in_session_entered _ Hin) as (later & c & earlier & Hrest).
    rewrite Hrest in Hok2.
    pose proof (always_split _ _ _ _ _ Hok2 eq_refl)
      as (_ & _ & _ & (_ & Henv & Htr & _) & _).
    rewrite Hrest. cbn [occurs is_env_make is_trainer_make is_session_enter orb].
    repeat split.
    + apply occurs_later. exact Henv.
    + apply occurs_later. exact Htr.
    + rewrite occurs_app. cbn. apply orb_true_r.
    + unfold holds in Hlog. destruct (last_read _) as [g|]; [|contradiction].
      exists g. eexists. rewrite Hlog. reflexivity.
Qed.

Lemma C1_witness :
  let self := demo_worker "foo" in
  let o := fst (run self 20 calm_world initial_state) in
  let h := history (snd (run self 20 calm_world initial_state)) in
  (forall later j t c r earlier,
      h = later ++ EvU (tf_train_Server j t c) r :: earlier ->
      j = "worker" /\ t = task self /\ c = worker_server_config)
  /\ (forall later spec earlier,
        h = later ++ EvU (ClusterSpec_as_cluster_def spec) (Returns tt) :: earlier ->
        exists later' r,
          later = later'
                  ++ [EvU (tf_train_Server "worker" (task self)
                             worker_server_config) r])
  /\ run self 20 calm_world initial_state
     = run (under_role "worker" self) 20 calm_world initial_state
  /\ (stopped_before_server o h \/ started_as_worker self o h)
  /\ (o = Done tt ->
      occurs is_env_make h = true
      /\ occurs is_trainer_make h = true
      /\ occurs is_session_enter h = true
      /\ exists g rest, h = EvLog WARNING (msg_reached self g) :: rest).
Proof.
  apply (C1_other_roles_run_as_worker (demo_worker "foo") 20 calm_world).
  reflexivity.
Defined.

(** C1, as the claim states it, fails: under the role name ["foo"] the
    process starts a server, builds the environment and the trainer, runs
    the training loop and returns normally. *)
Lemma C1_counterexample :
  let self := demo_worker "foo" in
  let o := fst (run self 20 calm_world initial_state) in
  let h := history (snd (run self 20 calm_world initial_state)) in
  o = Done tt
  /\ occurrences is_server h = 1%nat
  /\ occurrences is_env_make h = 1%nat
  /\ occurrences is_process h = 2%nat.
Proof. vm_compute. repeat split. Qed.

Lemma wp_callU_diverges w s c (Q : Outcome unit -> State -> Prop) :
  w_unit w (length (history s)) c = Diverges ->
  Q Blocked (record (EvU c Diverges) s) ->
  wp (callU c) w s Q.
Proof. unfold wp, callU. intros ->. exact (fun H => H). Qed.

(** C6: in the role ["ps"] the process never calls [process()] and never
    builds an environment or a trainer; once its server has started, the
    next call is [server.join()], no call follows that one, and the run
    ends as the call does.  Unless one of the calls before it fails, the
    run gets to [server.join()]: its events are then the calls of lines
    96-102, the server start under the role's own name with [ps_config],
    one log line and the join, and nothing else.  In a world where every
    other call returns and the join never does, the run is blocked in the
    join. *)
Theorem C6_parameter_server_only_joins self fuel w :
  job_name self = "ps" ->
  let o := fst (run self fuel w initial_state) in
  let h := history (snd (run self fuel w initial_state)) in
  absent is_process h = true
  /\ absent is_env_make h = true
  /\ absent is_trainer_use h = true
  /\ (forall later j t c earlier,
        h = later ++ EvU (tf_train_Server j t c) (Returns tt) :: earlier ->
        exists rj,
          later = [EvU server_join rj; EvLog DEBUG "parameters_server started."])
  /\ (forall later rj earlier,
        h = later ++ EvU server_join rj :: earlier ->
        later = []
        /\ o = match rj with
               | Returns _ => Done tt
               | Raises x => Raised x
               | Diverges => Blocked
               end)
  /\ (stopped_before_join o h
      \/ exists rj, h = ps_trace self rj /\ o = reply_outcome rj)
  /\ ((forall n c, c <> server_join -> w_unit w n c = Returns tt) ->
      (forall n, w_unit w n server_join = Diverges) ->
      o = Blocked /\ h = ps_trace self Diverges).
Proof.
  intros Hname o h.
  assert (Hrole : str_in (job_name self) "ps" = true) by (rewrite Hname; reflexivity).
  pose proof (run_always self fuel w) as Hok.
  pose proof (run_fin self fuel w) as (_ & _ & _ & _ & Hjoin & Hps).
  destruct (Hps Hrole) as [Hev _]. fold h in Hok, Hev, Hjoin. fold o in Hjoin.
  assert (Hreach : stopped_before_join o h
      \/ exists rj, h = ps_trace self rj /\ o = reply_outcome rj).
  { unfold o, h.
    change (wp (run self fuel) w initial_state
              (fun o s => stopped_before_join o (history s)
                          \/ exists rj, history s = ps_trace self rj
                                         /\ o = reply_outcome rj)).
    unfold run, initial_state. rewrite Hrole. wp_run.
    all: try (right; eexists; unfold ps_trace, preamble; use_facts;
              split; reflexivity).
    all: left; unfold stopped_before_join; do 3 eexists;
         cbn [history record]; (split; [reflexivity|]); repeat split. }
  split; [|split; [|split; [|split; [|split; [|split]]]]].
  - apply ps_events_absent; [|exact Hev]. intros [[]| | | |[]]; simpl; congruence.
  - apply ps_events_absent; [|exact Hev]. intros [[]| | | |[]]; simpl; congruence.
  - apply ps_events_absent; [|exact Hev].
    intros [[| | | | | | | | | | |[]| | | | | |]|[]|[[]]| |[]]; simpl; congruence.
  - exact (ps_run_joins self fuel w Hrole).
  - intros later rj earlier H. rewrite H in Hok.
    destruct (next_event _ _ _ Hok) as [E | (l & e & _ & He)].
    + subst later. split; [reflexivity|]. simpl in H. rewrite H in Hjoin.
      destruct rj as [[]|x|]; exact Hjoin.
    + destruct He as (_ & _ & _ & _ & _ & _ & _ & Hexp). contradiction Hexp.
  - exact Hreach.
  - intros Hret Hjoins.
    change (wp (run self fuel) w initial_state
              (fun o s => o = Blocked /\ history s = ps_trace self Diverges)).
    unfold run, initial_state, ps_trace, preamble. rewrite Hrole.
    destruct (test_mode self);
      repeat first
        [ apply wp_bind
        | apply wp_log
        | apply wp_ret
        | apply wp_callU_returns; [apply Hret; discriminate|]
        | apply wp_callU_diverges; [apply Hjoins|]
        | progress wp_norm ];
      split; reflexivity.
Qed.

Lemma C6_witness :
  let self := demo_worker "ps" in
  let o := fst (run self 20 joining_world initial_state) in
  let h := history (snd (run self 20 joining_world initial_state)) in
  o = Blocked /\ h = ps_trace self Diverges.
Proof.
  intros self o h.
  apply (C6_parameter_server_only_joins (demo_worker "ps") 20 joining_world).
  - reflexivity.
  - intros n c Hc. destruct c; try reflexivity. contradiction Hc. reflexivity.
  - reflexivity.
Defined.

Section Completes.
Context (self : Worker) (w : World) (step : nat -> Z).
Hypothesis unit_calls : forall n c, w_unit w n c = Returns tt.
Hypothesis never_stopped : forall n, w_bool w n sv_should_stop = Returns false.
Hypothesis bool_calls : forall n c, exists b, w_bool w n c = Returns b.
Hypothesis reads : forall n c, w_int w n c = Returns (step n).
Hypothesis progress : forall n m, (n < m)%nat -> (step n < step m)%Z.
Hypothesis vars_call : forall n c, exists gv, w_vars w n c = Returns gv.

Ltac coop_step :=
  wp_norm;
  lazymatch goal with
  | |- wp (bind _ _) _ _ _ => apply wp_bind
  | |- wp (ret _) _ _ _ => apply wp_ret
  | |- wp (callU _) _ _ _ => apply wp_callU_returns; [apply unit_calls|]
  | |- wp (callB sv_should_stop) _ _ _ =>
      apply (wp_callB_returns _ _ _ false); [apply never_stopped|]
  | |- wp (callB ?c) ?w ?s _ =>
      let b := fresh "b" in let Hb := fresh "Hb" in
      destruct (bool_calls (length (history s)) c) as [b Hb];
      apply (wp_callB_returns _ _ _ b); [exact Hb|]; destruct b
  | |- wp (callI _) _ _ _ => eapply wp_callI_returns; [apply reads|]
  | |- wp (callV ?c) ?w ?s _ =>
      let gv := fresh "gv" in let Hgv := fresh "Hgv" in
      destruct (vars_call (length (history s)) c) as [gv Hgv];
      apply (wp_callV_returns _ _ _ gv); [exact Hgv|]
  | |- wp (log _ _) _ _ _ => apply wp_log
  | |- wp (assign_global_step _) _ _ _ => apply wp_assign
  | |- wp read_global_step _ _ _ => apply wp_read
  | |- wp (try_except _ _) _ _ _ => apply wp_try_except
  | |- wp (with_ _ _ _) _ _ _ => apply wp_with
  | |- wp (for_each _ _) _ _ _ => apply wp_for_each_log; intros ?
  end.

Lemma training_loop_completes fuel : forall s g k,
  var_global_step s = Some g -> last_read (history s) = Some g ->
  g = step k -> (k < length (history s))%nat ->
  (Z.to_nat (max_train_steps self - g) < fuel)%nat ->
  wp (training_loop self fuel) w s (loop_done self).
Proof.
  induction fuel as [|fuel IH]; intros [h v] g k Hv Hr Hg Hk Hfuel;
    cbn [history var_global_step] in *; [lia|]. subst v.
  cbn [training_loop]. repeat coop_step.
  destruct (g <? max_train_steps self)%Z eqn:Hlt.
  - apply Z.ltb_lt in Hlt. repeat coop_step.
    cbn [length].
    apply (IH _ (step (S (S (length h)))) (S (S (length h))));
      cbn [history var_global_step last_read length]; auto; try lia.
    assert (step k < step (S (S (length h))))%Z by (apply progress; lia).
    lia.
  - apply Z.ltb_ge in Hlt. repeat coop_step.
    split; [reflexivity|]. exists g. cbn [history var_global_step last_read].
    auto.
Qed.

Hypothesis worker_role : str_in (job_name self) "ps" = false.
Hypothesis env_key :
  is_Some (env_kwargs self
             !! (if test_mode self then "gym_id" else "data_master")).
Hypothesis no_clash : kwargs_clash (trainer_kwargs self) = false.

(** In a world where every call returns, the stop flag stays unset and
    each read of the global step gives more than the one before, a worker
    whose configuration has the key its mode needs, and no keyword twice,
    returns normally once the loop bound of the model exceeds
    [max_train_steps] minus the first step: exit status 0, [env.close()]
    called exactly once, and the last line logs a global step that has
    reached [max_train_steps]. *)
Theorem worker_run_completes fuel :
  (Z.to_nat (max_train_steps self - step 0) < fuel)%nat ->
  let o := fst (run self fuel w initial_state) in
  let h := history (snd (run self fuel w initial_state)) in
  o = Done tt
  /\ exitcode o = Some 0%Z
  /\ occurrences is_close h = 1%nat
  /\ exists g rest,
       h = EvLog WARNING (msg_reached self g) :: rest
       /\ last_read rest = Some g
       /\ (max_train_steps self <= g)%Z.
Proof.
  intros Hfuel o h.
  assert (H : wp (run self fuel) w initial_state (completed_run self)).
  { unfold run, run_worker, make_environment, session_body, getitem,
      initial_state.
    rewrite worker_role, no_clash. destruct env_key as [v Hkey].
    destruct (test_mode self); rewrite Hkey; repeat coop_step.
    all: lazymatch goal with
         | |- wp (training_loop _ _) _ _ _ =>
             eapply wp_consequence;
             [ eapply training_loop_completes;
               [ reflexivity | reflexivity | reflexivity
               | cbn [history length record]; lia
               | cbn [history length record];
                 match goal with
                 | |- context [step ?k] =>
                     assert (step 0 < step k)%Z by (apply progress; lia)
                 end; lia ]
             | intros ? [h2 v2] (-> & g & Hv & Hr & Hmax);
               cbn [history var_global_step] in *; subst v2;
               repeat coop_step ]
         end.
    all: wp_norm; unfold completed_run;
      cbn [history var_global_step record occurs is_close orb last_read];
      (split; [reflexivity|]); (split; [reflexivity|]);
      exists g; eexists; (split; [reflexivity|]);
      cbn [last_read]; auto. }
  unfold wp in H. fold o h in H. destruct H as (Ho & Hocc & g & rest & Hh).
  split; [exact Ho|]. split; [rewrite Ho; reflexivity|].
  split; [|exists g, rest; exact Hh].
  apply occurs_occurrences in Hocc.
  pose proof (at_most_once (ok self) _ (close_fresh self) h
                (run_always self fuel w)).
  unfold h in *. lia.
Qed.
End Completes.

Lemma worker_run_completes_witness :
  let self := demo_worker "worker" in
  let o := fst (run self 30 calm_world initial_state) in
  let h := history (snd (run self 30 calm_world initial_state)) in
  o = Done tt
  /\ exitcode o = Some 0%Z
  /\ occurrences is_close h = 1%nat
  /\ exists g rest,
       h = EvLog WARNING (msg_reached self g) :: rest
       /\ last_read rest = Some g
       /\ (max_train_steps self <= g)%Z.
Proof.
  apply (worker_run_completes (demo_worker "worker") calm_world
           (fun n => Z.of_nat n - 18)%Z).
  - reflexivity.
  - reflexivity.
  - intros n c. destruct c; eexists; reflexivity.
  - reflexivity.
  - intros n m Hnm. lia.
  - intros n c. eexists; reflexivity.
  - reflexivity.
  - vm_compute. eexists; reflexivity.
  - reflexivity.
  - vm_compute. lia.
Defined.

(** ** The role test and the configuration keys *)

Lemma role_test_substrings x :
  str_in x "ps" = true <-> x = "" \/ x = "p" \/ x = "s" \/ x = "ps".
Proof.
  split.
  - destruct x as [|a [|b [|c r]]]; cbn;
      repeat match goal with
             | |- context [ascii_dec ?u ?v] => destruct (ascii_dec u v)
             end;
      subst; cbn; intros H; try discriminate H; auto.
  - intros [->|[->|[->| ->]]]; reflexivity.
Qed.

(** The role test [job_name in 'ps'] holds for the four substrings of
    ['ps'] and for no other name.  Under each of them the process runs the
    parameter-server branch: it builds no environment and uses no trainer,
    and the server it starts carries that very name as its job name. *)
Theorem parameter_server_branch_by_substring self fuel w :
  let h := history (snd (run self fuel w initial_state)) in
  (str_in (job_name self) "ps" = true
   <-> job_name self = "" \/ job_name self = "p"
       \/ job_name self = "s" \/ job_name self = "ps")
  /\ (str_in (job_name self) "ps" = true ->
      absent is_env_make h = true
      /\ absent is_trainer_use h = true
      /\ forall later j t c r earlier,
           h = later ++ EvU (tf_train_Server j t c) r :: earlier ->
           j = job_name self /\ t = task self /\ c = ps_config).
Proof.
  intros h. split; [apply role_test_substrings|]. intros Hrole.
  pose proof (run_always self fuel w) as Hok.
  pose proof (run_fin self fuel w) as (_ & _ & _ & _ & _ & Hps).
  destruct (Hps Hrole) as [Hev _]. fold h in Hok, Hev.
  split; [|split].
  - apply ps_events_absent; [|exact Hev]. intros [[]| | | |[]]; simpl; congruence.
  - apply ps_events_absent; [|exact Hev].
    intros [[| | | | | | | | | | |[]| | | | | |]|[]|[[]]| |[]]; simpl; congruence.
  - intros later j t c r earlier Hsplit.
    pose proof (always_split _ _ _ _ _ Hok Hsplit) as Hev'.
    hist_cbn. rewrite Hrole in Hev'. tauto.
Qed.

Lemma parameter_server_branch_by_substring_witness :
  let self := demo_worker "p" in
  let h := history (snd (run self 20 joining_world initial_state)) in
  absent is_env_make h = true
  /\ absent is_trainer_use h = true
  /\ forall later j t c r earlier,
       h = later ++ EvU (tf_train_Server j t c) r :: earlier ->
       j = "p" /\ t = task self /\ c = ps_config.
Proof.
  intros self h.
  destruct (parameter_server_branch_by_substring self 20 joining_world)
    as [_ H].
  apply H. reflexivity.
Defined.

Ltac stop_leaf :=
  wp_norm; unfold stops_with;
  cbn [history record absent occurs is_env_make server_started env_made
       needs_trainer is_trainer_use is_session_enter is_close negb andb orb];
  split; [reflexivity | intros Hreached; first [reflexivity | discriminate Hreached]].

(** In production mode a configuration without ['data_master'] never
    reaches the environment class: once the server has started, the run
    ends with [KeyError], not with the [SystemExit] of a failed
    environment. *)
Theorem missing_data_master_is_a_key_error self fuel w :
  str_in (job_name self) "ps" = false ->
  test_mode self = false ->
  env_kwargs self !! "data_master" = None ->
  absent is_env_make (history (snd (run self fuel w initial_state))) = true
  /\ (occurs server_started (history (snd (run self fuel w initial_state)))
      = true ->
      fst (run self fuel w initial_state) = Raised (KeyError "data_master")).
Proof.
  intros Hrole Hmode Hkey.
  change (wp (run self fuel) w initial_state
            (stops_with (KeyError "data_master") server_started is_env_make)).
  unfold run, run_worker, make_environment, getitem, initial_state.
  rewrite Hrole, Hmode, Hkey. wp_run. all: stop_leaf.
Qed.

Lemma missing_data_master_is_a_key_error_witness :
  let self := Build_Worker (PyRef "BTgymEnv") ∅ (PyRef "policy_config")
                (PyRef "A3C") ∅ ∅ "worker" 1 "/tmp/log" 10 None false in
  absent is_env_make (history (snd (run self 5 calm_world initial_state))) = true
  /\ (occurs server_started (history (snd (run self 5 calm_world initial_state)))
      = true ->
      fst (run self 5 calm_world initial_state) = Raised (KeyError "data_master")).
Proof.
  intros self.
  apply (missing_data_master_is_a_key_error self 5 calm_world); reflexivity.
Defined.

(** In diagnostic mode a configuration without ['gym_id'] never reaches
    the environment class either, but the lookup is inside the [try]:
    once the server has started, the run ends with the [SystemExit] of a
    failed Atari environment. *)
Theorem missing_gym_id_is_a_system_exit self fuel w :
  str_in (job_name self) "ps" = false ->
  test_mode self = true ->
  env_kwargs self !! "gym_id" = None ->
  absent is_env_make (history (snd (run self fuel w initial_state))) = true
  /\ (occurs server_started (history (snd (run self fuel w initial_state)))
      = true ->
      fst (run self fuel w initial_state)
      = Raised (SystemExit (" Worker_" +:+ str_int (task self)
                            +:+ " failed to make Atari Gym environment"))).
Proof.
  intros Hrole Hmode Hkey.
  change (wp (run self fuel) w initial_state
            (stops_with (SystemExit (msg_atari_failed self)) server_started
               is_env_make)).
  unfold run, run_worker, make_environment, getitem, initial_state.
  rewrite Hrole, Hmode, Hkey. wp_run. all: stop_leaf.
Qed.

Lemma missing_gym_id_is_a_system_exit_witness :
  let self := Build_Worker (PyRef "AtariEnv") ∅ (PyRef "policy_config")
                (PyRef "A3C") ∅ ∅ "worker" 1 "/tmp/log" 10 None true in
  absent is_env_make (history (snd (run self 5 calm_world initial_state))) = true
  /\ (occurs server_started (history (snd (run self 5 calm_world initial_state)))
      = true ->
      fst (run self 5 calm_world initial_state)
      = Raised (SystemExit (" Worker_" +:+ str_int (task self)
                            +:+ " failed to make Atari Gym environment"))).
Proof.
  intros self.
  apply (missing_gym_id_is_a_system_exit self 5 calm_world); reflexivity.
Defined.

(** When [trainer_kwargs] holds one of the keywords [run] passes itself
    ([env], [task], [policy_config], [log], [random_seed]), the trainer
    class is never called and no trainer operation, session or
    [env.close()] follows: once the environment is built, the run ends with
    [TypeError] and leaves the environment open. *)
Theorem keyword_given_twice_is_a_type_error self fuel w :
  str_in (job_name self) "ps" = false ->
  kwargs_clash (trainer_kwargs self) = true ->
  let h := history (snd (run self fuel w initial_state)) in
  absent is_trainer_use h = true
  /\ absent is_session_enter h = true
  /\ absent is_close h = true
  /\ (occurs env_made h = true ->
      fst (run self fuel w initial_state) = Raised TypeError).
Proof.
  intros Hrole Hclash h.
  assert (H : wp (run self fuel) w initial_state
                (stops_with TypeError env_made needs_trainer)).
  { unfold run, run_worker, make_environment, initial_state.
    rewrite Hrole, Hclash. wp_run. all: stop_leaf. }
  destruct H as [Habs Hout]. fold h in Habs, Hout.
  repeat split; try exact Hout;
    (eapply absent_weaken; [|exact Habs]); intros e He;
    unfold needs_trainer; rewrite He; cbn;
    rewrite ?orb_true_r; reflexivity.
Qed.

Lemma keyword_given_twice_is_a_type_error_witness :
  let self := Build_Worker (PyRef "BTgymEnv") {[ "data_master" := PyBool true ]}
                (PyRef "policy_config") (PyRef "A3C")
                {[ "task" := PyInt 3 ]} ∅ "worker" 1 "/tmp/log" 10 None false in
  let h := history (snd (run self 5 calm_world initial_state)) in
  absent is_trainer_use h = true
  /\ absent is_session_enter h = true
  /\ absent is_close h = true
  /\ (occurs env_made h = true ->
      fst (run self 5 calm_world initial_state) = Raised TypeError).
Proof.
  intros self.
  apply (keyword_given_twice_is_a_type_error self 5 calm_world);
    vm_compute; reflexivity.
Defined.

(** The summary writer is given [log_dir/train_<task>]: of two workers
    that share [log_dir], only those of the same rank write their
    summaries to the same directory. *)
Theorem summary_directory_per_rank self fuel w later d r earlier :
  history (snd (run self fuel w initial_state))
    = later ++ EvU (tf_summary_FileWriter d) r :: earlier ->
  d = os_path_join (log_dir self) "train" +:+ "_" +:+ str_int (task self)
  /\ forall other,
       log_dir other = log_dir self -> summary_dir other = d ->
       task other = task self.
Proof.
  intros Hsplit.
  pose proof (always_split _ _ _ _ _ (run_always2 self fuel w) Hsplit)
    as (_ & _ & _ & _ & Hd).
  cbn in Hd. subst d. split; [reflexivity|].
  intros other Hlog Hdir. unfold summary_dir in Hdir. rewrite Hlog in Hdir.
  apply String.app_inj in Hdir. apply String.app_inj in Hdir.
  apply (inj pretty) in Hdir. exact Hdir.
Qed.

Lemma summary_directory_per_rank_witness :
  "/tmp/log/train_0"
  = os_path_join (log_dir (demo_worker "worker")) "train"
    +:+ "_" +:+ str_int (task (demo_worker "worker"))
  /\ forall other,
       log_dir other = log_dir (demo_worker "worker") ->
       summary_dir other = "/tmp/log/train_0" ->
       task other = task (demo_worker "worker").
Proof.
  apply (summary_directory_per_rank (demo_worker "worker") 20 calm_world
           (firstn 23 demo_history) _ (Returns tt) (skipn 24 demo_history)).
  vm_compute. reflexivity.
Defined.

(** [sv.stop()] is called by [run] exactly after [env.close()] has
    returned: a returned [close] is followed at once by [stop], and every
    [stop] comes right after a returned [close]. *)
Theorem stop_follows_close self fuel w :
  let h := history (snd (run self fuel w initial_state)) in
  (forall later earlier,
      h = later ++ EvU env_close (Returns tt) :: earlier ->
      exists later' r, later = later' ++ [EvU sv_stop r])
  /\ (forall later r earlier,
        h = later ++ EvU sv_stop r :: earlier ->
        exists rest, earlier = EvU env_close (Returns tt) :: rest).
Proof.
  intros h. pose proof (run_always self fuel w) as Hok.
  pose proof (run_fin self fuel w) as (_ & Hpend & _).
  fold h in Hok, Hpend. split.
  - intros later earlier Hsplit. rewrite Hsplit in Hok, Hpend.
    destruct (next_event _ _ _ Hok) as [-> | (later' & e & -> & He)];
      [discriminate Hpend|].
    destruct He as (_ & _ & _ & _ & _ & _ & _ & Hexp). cbn [expects] in Hexp.
    destruct e as [[] r| | | |]; try discriminate Hexp. eauto.
  - intros later r earlier Hsplit.
    pose proof (always_split _ _ _ _ _ Hok Hsplit) as (_ & Hclose & _).
    cbn [ok_close] in Hclose.
    destruct earlier as [|[[] [[]|?|]| | | |] rest]; try contradiction.
    eauto.
Qed.

Lemma stop_follows_close_witness :
  (exists later' r, firstn 4 demo_history = later' ++ [EvU sv_stop r])
  /\ (exists rest, skipn 4 demo_history = EvU env_close (Returns tt) :: rest).
Proof.
  destruct (stop_follows_close (demo_worker "worker") 20 calm_world)
    as [A B].
  split.
  - apply (A (firstn 4 demo_history) (skipn 5 demo_history)).
    vm_compute. reflexivity.
  - apply (B (firstn 3 demo_history) (Returns tt) (skipn 4 demo_history)).
    vm_compute. reflexivity.
Defined.

(** ** [Worker.__init__] *)

Lemma pretty_N_go_no_underscore x : forall s,
  contains_char "_" s = false -> contains_char "_" (pretty_N_go x s) = false.
Proof.
  induction (N.lt_wf_0 x) as [x _ IH]; intros s Hs.
  destruct (N.eq_dec x 0%N) as [->|Hx]; [rewrite pretty_N_go_0; exact Hs|].
  rewrite pretty_N_go_step by lia. apply IH.
  - apply N.div_lt; lia.
  - cbn [contains_char]. rewrite Hs.
    unfold pretty_N_char. repeat case_match; reflexivity.
Qed.

Lemma pretty_N_no_underscore (x : N) : contains_char "_" (pretty x) = false.
Proof.
  unfold pretty, pretty_N. case_decide; [reflexivity|].
  apply pretty_N_go_no_underscore. reflexivity.
Qed.

Lemma str_int_no_underscore z : contains_char "_" (str_int z) = false.
Proof.
  unfold str_int, pretty, pretty_Z. destruct z as [|p|p].
  - reflexivity.
  - apply pretty_N_no_underscore.
  - simpl. apply pretty_N_no_underscore.
Qed.

Lemma contains_separator c j p : contains_char c (j +:+ String c p) = true.
Proof.
  induction j as [|c' j IH]; simpl.
  - rewrite Ascii.eqb_refl. reflexivity.
  - rewrite IH. apply orb_true_r.
Qed.

Lemma split_at_last c j1 : forall j2 p1 p2,
  contains_char c p1 = false -> contains_char c p2 = false ->
  j1 +:+ String c p1 = j2 +:+ String c p2 -> j1 = j2 /\ p1 = p2.
Proof.
  induction j1 as [|a j1 IH]; intros [|b j2] p1 p2 H1 H2 E; simpl in E.
  - injection E as ->. auto.
  - injection E as <- ->. rewrite contains_separator in H1. discriminate H1.
  - injection E as -> <-. rewrite contains_separator in H2. discriminate H2.
  - injection E as <- E. destruct (IH _ _ _ H1 H2 E) as [-> ->]. auto.
Qed.

Lemma logger_name_of_inj j1 t1 j2 t2 :
  logger_name_of j1 t1 = logger_name_of j2 t2 -> j1 = j2 /\ t1 = t2.
Proof.
  unfold logger_name_of. intros E.
  change ("_" +:+ str_int t1) with (String "_" (str_int t1)) in E.
  change ("_" +:+ str_int t2) with (String "_" (str_int t2)) in E.
  apply split_at_last in E as [-> E]; try apply str_int_no_underscore.
  apply (inj pretty) in E. auto.
Qed.

(** Once [Process.__init__] has returned, [Worker.__init__] looks up
    [env_config['class_ref']], [env_config['kwargs']],
    [trainer_config['class_ref']] and [trainer_config['kwargs']] in this
    order and fails with the [KeyError] of the first missing one, before
    any call into [logging].  With the four entries present it goes on to
    [logging.basicConfig()], and it then fails only with what one of the
    three [logging] calls raised. *)
Theorem init_fails_on_the_first_missing_key a iw :
  iw_unit iw 0 Process_init = Returns tt ->
  let o := fst (construct a iw) in
  let h := snd (construct a iw) in
  match class_ref_entry (arg_env_config a), kwargs_entry (arg_env_config a),
        class_ref_entry (arg_trainer_config a),
        kwargs_entry (arg_trainer_config a) with
  | None, _, _, _ =>
      o = Raised (KeyError "class_ref") /\ h = [IvU Process_init (Returns tt)]
  | Some _, None, _, _ =>
      o = Raised (KeyError "kwargs") /\ h = [IvU Process_init (Returns tt)]
  | Some _, Some _, None, _ =>
      o = Raised (KeyError "class_ref") /\ h = [IvU Process_init (Returns tt)]
  | Some _, Some _, Some _, None =>
      o = Raised (KeyError "kwargs") /\ h = [IvU Process_init (Returns tt)]
  | Some _, Some _, Some _, Some _ =>
      (exists later r,
         h = later ++ [IvU logging_basicConfig r; IvU Process_init (Returns tt)])
      /\ (forall x, o = Raised x ->
            exists e rest,
              h = e :: rest /\ init_failed e = Some x /\ is_logging e = true)
  end.
Proof.
  intros Hinit. cbv zeta.
  unfold construct, Worker_init, init_bind, init_call, logging_getLogger, item,
    init_ret, init_raise.
  cbn [length]. rewrite Hinit. cbn [init_reply].
  destruct (class_ref_entry (arg_env_config a)); [|split; reflexivity].
  destruct (kwargs_entry (arg_env_config a)); [|split; reflexivity].
  destruct (class_ref_entry (arg_trainer_config a)); [|split; reflexivity].
  destruct (kwargs_entry (arg_trainer_config a)); [|split; reflexivity].
  cbn [length].
  destruct (iw_unit iw 1 logging_basicConfig) as [[]| |];
    cbn [init_reply fst snd length].
  2,3: split; [exists []; eexists; reflexivity|]; intros x Hx;
       try discriminate Hx; injection Hx as <-; do 2 eexists;
       repeat split.
  destruct (iw_getLogger iw 2 _) as [lg| |];
    cbn [init_reply fst snd length].
  2,3: split; [eexists [_]; eexists; reflexivity|]; intros x Hx;
       try discriminate Hx; injection Hx as <-; do 2 eexists;
       repeat split.
  destruct (iw_unit iw 3 _) as [[]| |];
    cbn [init_reply fst snd length].
  all: split; [eexists [_; _]; eexists; reflexivity|]; intros x Hx;
       try discriminate Hx; injection Hx as <-; do 2 eexists;
       repeat split.
Qed.

Lemma init_fails_on_the_first_missing_key_witness :
  fst (construct (demo_args None 0) calm_init_world) = Raised (KeyError "kwargs")
  /\ snd (construct (demo_args None 0) calm_init_world)
     = [IvU Process_init (Returns tt)].
Proof.
  apply (init_fails_on_the_first_missing_key (demo_args None 0) calm_init_world).
  reflexivity.
Defined.

Lemma construct_events a iw :
  let h := snd (construct a iw) in
  (forall name r, In (IvGetLogger name r) h ->
     name = logger_name_of (arg_job_name a) (arg_task a))
  /\ (forall self lg, fst (construct a iw) = Done (self, lg) ->
        job_name self = arg_job_name a /\ task self = arg_task a
        /\ h = [IvU (Logger_setLevel lg (arg_log_level a)) (Returns tt);
                IvGetLogger (logger_name_of (arg_job_name a) (arg_task a))
                  (Returns lg);
                IvU logging_basicConfig (Returns tt);
                IvU Process_init (Returns tt)]).
Proof.
  cbv zeta.
  unfold construct, Worker_init, init_bind, init_call, logging_getLogger, item,
    init_ret, init_raise.
  cbn [length].
  destruct (iw_unit iw 0 Process_init) as [[]| |]; cbn [init_reply fst snd length].
  2,3: split; [intros ? ? [H|[]]; discriminate H | intros ? ? H; discriminate H].
  destruct (class_ref_entry (arg_env_config a)); cbn [fst snd].
  2: split; [intros ? ? [H|[]]; discriminate H | intros ? ? H; discriminate H].
  destruct (kwargs_entry (arg_env_config a)); cbn [fst snd].
  2: split; [intros ? ? [H|[]]; discriminate H | intros ? ? H; discriminate H].
  destruct (class_ref_entry (arg_trainer_config a)); cbn [fst snd].
  2: split; [intros ? ? [H|[]]; discriminate H | intros ? ? H; discriminate H].
  destruct (kwargs_entry (arg_trainer_config a)); cbn [fst snd].
  2: split; [intros ? ? [H|[]]; discriminate H | intros ? ? H; discriminate H].
  cbn [length].
  destruct (iw_unit iw 1 logging_basicConfig) as [[]| |];
    cbn [init_reply fst snd length].
  2,3: split; [intros ? ? [H|[H|[]]]; discriminate H
              | intros ? ? H; discriminate H].
  destruct (iw_getLogger iw 2 _) as [lg| |]; cbn [init_reply fst snd length].
  2,3: split; [intros ? ? [H|[H|[H|[]]]]; try discriminate H;
               injection H as <- _; reflexivity
              | intros ? ? H; discriminate H].
  destruct (iw_unit iw 3 _) as [[]| |]; cbn [init_reply fst snd length].
  all: split; [intros ? ? [H|[H|[H|[H|[]]]]]; try discriminate H;
               injection H as <- _; reflexivity|].
  all: intros self lg' H; try discriminate H.
  injection H as <- <-. cbn [job_name task]. auto.
Qed.

(** [Worker.__init__] asks [logging.getLogger] for the name
    ["<job_name>_<task>"] and for no other; the worker it returns holds
    the logger this call returned, not the one passed in, and [setLevel]
    was called on that logger with the level passed in.  The name tells
    role and rank: two constructions that ask for the same logger name
    were given the same job name and the same rank. *)
Theorem init_names_the_logger_by_rank a b iw iw' :
  let ha := snd (construct a iw) in
  let hb := snd (construct b iw') in
  (forall name r, In (IvGetLogger name r) ha ->
     name = arg_job_name a +:+ "_" +:+ str_int (arg_task a))
  /\ (forall self lg, fst (construct a iw) = Done (self, lg) ->
        In (IvGetLogger (job_name self +:+ "_" +:+ str_int (task self))
              (Returns lg)) ha
        /\ In (IvU (Logger_setLevel lg (arg_log_level a)) (Returns tt)) ha)
  /\ (forall name ra rb,
        In (IvGetLogger name ra) ha -> In (IvGetLogger name rb) hb ->
        arg_job_name a = arg_job_name b /\ arg_task a = arg_task b).
Proof.
  intros ha hb.
  destruct (construct_events a iw) as [Ha Hdone].
  destruct (construct_events b iw') as [Hb _].
  fold ha in Ha, Hdone. fold hb in Hb.
  split; [exact Ha|]. split.
  - intros self lg H. destruct (Hdone self lg H) as (-> & -> & ->).
    cbn [In]. unfold logger_name_of. auto.
  - intros name ra rb Hina Hinb.
    apply logger_name_of_inj. rewrite <- (Ha _ _ Hina). exact (Hb _ _ Hinb).
Qed.

Lemma init_names_the_logger_by_rank_witness :
  In (IvGetLogger "worker_1" (Returns (PyRef "logger:worker_1")))
     (snd (construct (demo_args (Some ∅) 1) calm_init_world))
  /\ ~ In (IvGetLogger "worker_1" (Returns (PyRef "logger:worker_1")))
         (snd (construct (demo_args (Some ∅) 0) calm_init_world)).
Proof.
  destruct (init_names_the_logger_by_rank (demo_args (Some ∅) 1)
              (demo_args (Some ∅) 0) calm_init_world calm_init_world)
    as (_ & Hdone & Hshare).
  split.
  - apply (Hdone _ _ eq_refl).
  - intros Hin.
    destruct (Hshare _ _ _ (proj1 (Hdone _ _ eq_refl)) Hin) as [_ Hrank].
    discriminate Hrank.
Defined.

Lemma data_master_lookup_stops self fuel w :
  str_in (job_name self) "ps" = false ->
  test_mode self = false ->
  env_kwargs self !! "data_master" = None ->
  wp (run self fuel) w initial_state
     (stops_with (KeyError "data_master") server_started is_env_make).
Proof.
  intros Hrole Hmode Hkey.
  unfold run, run_worker, make_environment, getitem, initial_state.
  rewrite Hrole, Hmode, Hkey. wp_run. all: stop_leaf.
Qed.

(** [Worker.__init__] does not look into [env_config['kwargs']]: when
    the four entries are present and the calls of [__init__] return, it
    returns a worker whatever the keyword dictionary holds.  If that
    dictionary lacks ['data_master'], the failure shows only when the
    worker runs in production mode: no environment is made, and once the
    server has started the run ends with [KeyError]. *)
Theorem init_does_not_check_env_kwargs a iw env_cls env_kw trainer_cls trainer_kw lg :
  class_ref_entry (arg_env_config a) = Some env_cls ->
  kwargs_entry (arg_env_config a) = Some env_kw ->
  class_ref_entry (arg_trainer_config a) = Some trainer_cls ->
  kwargs_entry (arg_trainer_config a) = Some trainer_kw ->
  (forall n c, iw_unit iw n c = Returns tt) ->
  iw_getLogger iw 2 (arg_job_name a +:+ "_" +:+ str_int (arg_task a))
  = Returns lg ->
  exists self,
    fst (construct a iw) = Done (self, lg)
    /\ env_kwargs self = env_kw
    /\ (arg_test_mode a = false ->
        str_in (arg_job_name a) "ps" = false ->
        env_kw !! "data_master" = None ->
        forall fuel w,
          absent is_env_make (history (snd (run self fuel w initial_state)))
          = true
          /\ (occurs server_started
                (history (snd (run self fuel w initial_state))) = true ->
              fst (run self fuel w initial_state)
              = Raised (KeyError "data_master"))).
Proof.
  intros H1 H2 H3 H4 Hu Hg.
  unfold construct, Worker_init, init_bind, init_call, logging_getLogger, item,
    init_ret, init_raise.
  cbn [length]. rewrite Hu. cbn [init_reply]. rewrite H1, H2, H3, H4.
  cbn [length]. rewrite Hu. cbn [init_reply length].
  unfold logger_name_of. rewrite Hg. cbn [init_reply length]. rewrite Hu. cbn [init_reply fst].
  eexists. split; [reflexivity|]. split; [reflexivity|].
  intros Hmode Hrole Hkey fuel w.
  apply (data_master_lookup_stops _ fuel w); assumption.
Qed.

Lemma init_does_not_check_env_kwargs_witness :
  exists self,
    fst (construct (demo_args (Some ∅) 0) calm_init_world)
    = Done (self, PyRef "logger:worker_0")
    /\ env_kwargs self = ∅
    /\ fst (run self 5 calm_world initial_state)
       = Raised (KeyError "data_master").
Proof.
  destruct (init_does_not_check_env_kwargs (demo_args (Some ∅) 0)
              calm_init_world (PyRef "BTgymEnv") ∅ (PyRef "A3C") ∅
              (PyRef "logger:worker_0"))
    as (self & Hdone & Hkw & Hrun); try reflexivity.
  exists self. split; [exact Hdone|]. split; [exact Hkw|].
  destruct (Hrun eq_refl eq_refl eq_refl 5%nat calm_world) as [_ H].
  apply H. injection Hdone as <-. vm_compute. reflexivity.
Defined.
